(** * obspy.neries: the NERIES web service client

    A shallow embedding of [obspy/neries/client.py]: the keyword mapping
    decorator [_mapKwargs], the event normaliser [_json2list], the event
    search [getEvents], and the waveform workflow [saveWaveform] /
    [getWaveform] (submit, poll, retrieve, download, purge).

    Python objects that the client mutates (the suds plug-in list, open
    files) live in an explicit [State]; everything the client cannot
    control (SOAP replies, HTTP payloads, the file system) is a [World]
    of scripted answers.  An exception is a value of type [exn]. *)

From Stdlib Require Import ZArith String Ascii List Bool Lia.
From Stdlib Require Import Floats.SpecFloat.
From Stdlib Require Import DecimalString.
From stdpp Require Import gmap strings list fin_maps.
Import ListNotations.

Local Open Scope string_scope.
Local Open Scope list_scope.

(** ** Python strings *)

(** [needle in hay] for two strings. *)
Fixpoint str_in (needle hay : string) : bool :=
  String.prefix needle hay ||
  match hay with
  | EmptyString => false
  | String _ rest => str_in needle rest
  end.

(** [s.replace(a, b)] for one-character [a] and [b]. *)
Fixpoint replace_char (a b : ascii) (s : string) : string :=
  match s with
  | EmptyString => EmptyString
  | String c rest =>
      String (if Ascii.eqb c a then b else c) (replace_char a b rest)
  end.

(** [c.lower()] on one character: only 'A'..'Z' change. *)
Definition lower_ascii (c : ascii) : ascii :=
  let n := nat_of_ascii c in
  if (65 <=? n)%nat && (n <=? 90)%nat then ascii_of_nat (n + 32) else c.

(** [s.lower()] *)
Fixpoint lower (s : string) : string :=
  match s with
  | EmptyString => EmptyString
  | String c rest => String (lower_ascii c) (lower rest)
  end.

(** ** Exceptions and the state-and-exception monad *)

Inductive exn : Type :=
| TransportError (operation : string)
| IOError (path : string)
| ValueError (msg : string)
| TypeError (msg : string)
| KeyError (key : string)
| AttributeError (attr : string)
| OverflowError
| Diverged.

Definition Py (St A : Type) : Type := St -> (exn + A) * St.

Definition ret {St A} (a : A) : Py St A := fun s => (inr a, s).

Definition raise {St A} (e : exn) : Py St A := fun s => (inl e, s).

Definition bind {St A B} (c : Py St A) (k : A -> Py St B) : Py St B :=
  fun s =>
    match c s with
    | (inl e, s') => (inl e, s')
    | (inr a, s') => k a s'
    end.

(** [try: c except: h] with a bare [except], which catches everything. *)
Definition try_except {St A} (c : Py St A) (h : Py St A) : Py St A :=
  fun s =>
    match c s with
    | (inl _, s') => h s'
    | (inr a, s') => (inr a, s')
    end.

Definition gets {St A} (f : St -> A) : Py St A := fun s => (inr (f s), s).

Definition modify {St} (f : St -> St) : Py St unit := fun s => (inr tt, f s).

Declare Scope py_scope.
Delimit Scope py_scope with py.
Notation "x <- c ;; k" := (bind c (fun x => k))
  (at level 100, c at next level, right associativity) : py_scope.
Notation "c ;;; k" := (bind c (fun _ => k))
  (at level 100, right associativity) : py_scope.
Local Open Scope py_scope.

(** ** suds: envelopes, plug-ins and the seismolink operations *)

Record Attribute : Type := mkAttribute { attr_name : string; attr_value : string }.

Record Element : Type := mkElement { name : string; attributes : list Attribute }.

(** The SOAP envelope as far as a message plug-in sees it: the children of
    its [Body]. *)
Record Envelope : Type := mkEnvelope { Body : list Element }.

(** The plug-in classes derived from [suds.plugin.MessagePlugin] in this
    module; [marshalled] is the hook suds runs on the finished envelope just
    before it is sent. *)
Inductive MessagePlugin : Type := _RequestMSEEDPlugin.

(** [_RequestMSEEDPlugin.marshalled]: the first child of the body gets a
    [DataFormat="MSEED"] attribute when it is a [dataRequest].  On an empty
    body the index [[0]] raises inside the hook, and suds drops a hook's
    exception, leaving the envelope as it was. *)
Definition marshalled (plugin : MessagePlugin) (context : Envelope) : Envelope :=
  match plugin with
  | _RequestMSEEDPlugin =>
      match Body context with
      | [] => context
      | foo :: others =>
          if String.eqb (name foo) "dataRequest"
          then {| Body :=
                    {| name := name foo;
                       attributes :=
                         attributes foo ++ [mkAttribute "DataFormat" "MSEED"] |}
                    :: others |}
          else context
      end
  end.

Record UserTokenType : Type := mkUserToken {
  email : string; password_ : string; label : string; locale : string }.

Record StationIdentifierType : Type := mkStationId {
  NetworkCode : string; StationCode : string; ChannelCode : string;
  LocId : string; beginPosition : string; endPosition : string }.

Record RoutedRequest : Type := mkRoutedRequest {
  _Id : string;
  ReadyFlag : string;
  StatusDescription : string;
  Fulfillment : Z }.

Record DownloadTokenType : Type := mkDownloadToken { DownloadURL : string }.

Record DataItem : Type := mkDataItem { DownloadToken : DownloadTokenType }.

(** One call of [client.service.<operation>(...)] with its arguments. *)
Inductive Rpc : Type :=
| dataRequest (usertoken : UserTokenType) (stationid : StationIdentifierType)
| checkStatus (usertoken : UserTokenType) (request_ids : list string)
| dataRetrieve (usertoken : UserTokenType) (request_ids : list string)
| purgeData (usertoken : UserTokenType) (request_ids : list string).

Definition operation (call : Rpc) : string :=
  match call with
  | dataRequest _ _ => "dataRequest"
  | checkStatus _ _ => "checkStatus"
  | dataRetrieve _ _ => "dataRetrieve"
  | purgeData _ _ => "purgeData"
  end.

(** suds marshals a call into an envelope whose body holds one element named
    after the operation, then runs every installed plug-in over it. *)
Definition marshal (plugins : list MessagePlugin) (call : Rpc) : Envelope :=
  fold_left (fun envelope plugin => marshalled plugin envelope) plugins
            {| Body := [ {| name := operation call; attributes := [] |} ] |}.

(** ** Files *)

Record File : Type := mkFile {
  file_name : string;
  data : list Byte.byte;
  closed : bool }.

(** What a Python caller may pass as [filename]. *)
Inductive PyObject : Type :=
| PyStr (s : string)      (* a [basestring] *)
| PyFile (fh : nat)       (* a [file]: a handle into the heap of files *)
| PyOther.                (* anything else *)

(** ** Observable events, state and world *)

Inductive Event : Type :=
| Soap (hooks : list MessagePlugin) (envelope : Envelope) (call : Rpc)
| Urlopen (url : string)
| Open (path : string) (fh : nat)
| Write (fh : nat) (payload : list Byte.byte)
| Close (fh : nat)
| Remove (path : string).

Record State : Type := mkState {
  plugins : list MessagePlugin;                    (* client.options.plugins *)
  pending : list (option (list RoutedRequest));    (* checkStatus answers still to come *)
  heap : list File;                                (* the file objects that exist *)
  trace : list Event }.                            (* what happened, oldest first *)

(** The answers of everything outside the client.  [None] (or [false]) is a
    call that raises. *)
Record World : Type := mkWorld {
  dataRequest_reply : UserTokenType -> StationIdentifierType -> option (list RoutedRequest);
  dataRetrieve_reply : list string -> option (list DataItem);
  purgeData_reply : list string -> bool;
  urlopen_reply : string -> option (list Byte.byte);
  open_reply : string -> bool;
  remove_reply : string -> bool;
  tempfile_name : string }.

Definition set_plugins (p : list MessagePlugin) (s : State) : State :=
  {| plugins := p; pending := pending s; heap := heap s; trace := trace s |}.

Definition set_pending (p : list (option (list RoutedRequest))) (s : State) : State :=
  {| plugins := plugins s; pending := p; heap := heap s; trace := trace s |}.

Definition set_heap (h : list File) (s : State) : State :=
  {| plugins := plugins s; pending := pending s; heap := h; trace := trace s |}.

Definition emit (e : Event) (s : State) : State :=
  {| plugins := plugins s; pending := pending s; heap := heap s;
     trace := trace s ++ [e] |}.

(** Sending a call: the installed plug-ins shape the envelope. *)
Definition send (call : Rpc) : Py State unit :=
  modify (fun s => emit (Soap (plugins s) (marshal (plugins s) call) call) s).

Definition answer {St A} (op : string) (reply : option A) : Py St A :=
  match reply with
  | Some r => ret r
  | None => raise (TransportError op)
  end.

Section Service.
Variable w : World.

Definition service_dataRequest (usertoken : UserTokenType)
    (stationid : StationIdentifierType) : Py State (list RoutedRequest) :=
  send (dataRequest usertoken stationid) ;;;
  answer "dataRequest" (dataRequest_reply w usertoken stationid).

(** The status answers are scripted: each call consumes the next one; a
    [None] entry, or a script that has run out, is a call that raises. *)
Definition service_checkStatus (usertoken : UserTokenType)
    (request_ids : list string) : Py State (list RoutedRequest) :=
  send (checkStatus usertoken request_ids) ;;;
  script <- gets pending ;;
  match script with
  | [] => raise (TransportError "checkStatus")
  | reply :: rest => modify (set_pending rest) ;;; answer "checkStatus" reply
  end.

Definition service_dataRetrieve (usertoken : UserTokenType)
    (request_ids : list string) : Py State (list DataItem) :=
  send (dataRetrieve usertoken request_ids) ;;;
  answer "dataRetrieve" (dataRetrieve_reply w request_ids).

Definition service_purgeData (usertoken : UserTokenType)
    (request_ids : list string) : Py State unit :=
  send (purgeData usertoken request_ids) ;;;
  if purgeData_reply w request_ids then ret tt
  else raise (TransportError "purgeData").

(** [urllib2.urlopen(url).read()] *)
Definition urlopen_read (url : string) : Py State (list Byte.byte) :=
  modify (emit (Urlopen url)) ;;;
  answer "urlopen" (urlopen_reply w url).

(** [open(path, "wb")]: a new, empty file object. *)
Definition open_wb (path : string) : Py State nat :=
  if open_reply w path then
    fh <- gets (fun s => length (heap s)) ;;
    modify (fun s => set_heap (heap s ++ [mkFile path [] false]) s) ;;;
    modify (emit (Open path fh)) ;;;
    ret fh
  else raise (IOError path).

(** [os.remove(path)] *)
Definition os_remove (path : string) : Py State unit :=
  modify (emit (Remove path)) ;;;
  if remove_reply w path then ret tt else raise (IOError path).
End Service.

(** [fh.write(payload)]: appends to an open file (the position is at its
    end), raises on a closed one. *)
Definition fh_write (fh : nat) (payload : list Byte.byte) : Py State unit :=
  files <- gets heap ;;
  match files !! fh with
  | Some f =>
      if closed f then raise (ValueError "I/O operation on closed file")
      else
        modify (set_heap (<[fh := mkFile (file_name f) (data f ++ payload) false]> files)) ;;;
        modify (emit (Write fh payload))
  | None => raise (ValueError "I/O operation on closed file")
  end.

(** [fh.close()] *)
Definition fh_close (fh : nat) : Py State unit :=
  files <- gets heap ;;
  match files !! fh with
  | Some f =>
      modify (set_heap (<[fh := mkFile (file_name f) (data f) true]> files)) ;;;
      modify (emit (Close fh))
  | None => modify (emit (Close fh))
  end.

(** [for x in xs: body(x)] *)
Fixpoint for_each {St A} (xs : list A) (body : A -> Py St unit) : Py St unit :=
  match xs with
  | [] => ret tt
  | x :: rest => body x ;;; for_each rest body
  end.

(** ** The client *)

Record Client : Type := mkClient {
  base_url : string;
  timeout : Z;
  debug : bool;
  user_agent : string;
  user : string;
  password : string }.

(** ["false" in status] *)
Definition false_in (status : list string) : bool :=
  existsb (String.eqb "false") status.

(** The condition of the list comprehension that keeps a routed request. *)
Definition fulfilled (r : RoutedRequest) : bool :=
  str_in "Status: OK" (StatusDescription r) && (Fulfillment r =? 100)%Z.

Section Waveform.
(** [obspy.core.UTCDateTime] is not part of this module: the type and its
    [strftime("%Y-%m-%dT%H:%M:%S")] are parameters. *)
Context {UTCDateTime : Type}.
Variable strftime : UTCDateTime -> string.
Variable w : World.

(** The [while True] loop of [saveWaveform].  Every turn consumes one
    scripted answer, so [fuel] larger than the script is never used up
    ([poll_outcome] below: the loop as [saveWaveform] starts it never ends
    in [Diverged]). *)
Fixpoint poll (fuel : nat) (usertoken : UserTokenType)
    (request_ids : list string) : Py State (list RoutedRequest) :=
  match fuel with
  | O => raise Diverged
  | S fuel' =>
      response <- service_checkStatus usertoken request_ids ;;
      let status := map ReadyFlag response in
      if false_in status then poll fuel' usertoken request_ids
      else ret response
  end.

Definition saveWaveform (self : Client) (filename : PyObject)
    (network station location channel : string)
    (starttime endtime : UTCDateTime) (format : string) : Py State unit :=
  (* client = SudsClient(SEISMOLINK_WSDL): a new client, no plug-ins *)
  modify (set_plugins []) ;;;
  let usertoken :=
    {| email := user self; password_ := password self;
       label := replace_char " " "_" (user_agent self); locale := EmptyString |} in
  let stationid :=
    {| NetworkCode := network; StationCode := station;
       ChannelCode := channel; LocId := location;
       beginPosition := strftime starttime;
       endPosition := strftime endtime |} in
  (if String.eqb format "MSEED"
   then modify (set_plugins [_RequestMSEEDPlugin]) else ret tt) ;;;
  response <- service_dataRequest w usertoken stationid ;;
  (if String.eqb format "MSEED" then modify (set_plugins []) else ret tt) ;;;
  let request_ids := map _Id response in
  match request_ids with
  | [] => ret tt
  | _ :: _ =>
      fuel <- gets (fun s => S (length (pending s))) ;;
      response <- poll fuel usertoken request_ids ;;
      let request_ids := map _Id (List.filter fulfilled response) in
      match request_ids with
      | [] => ret tt
      | _ :: _ =>
          response <- service_dataRetrieve w usertoken request_ids ;;
          let urls := map (fun r => DownloadURL (DownloadToken r)) response in
          fh <- match filename with
                | PyStr path => open_wb w path
                | PyFile fh => ret fh
                | PyOther =>
                    raise (TypeError
                      "Parameter filename must be either string or file handler.")
                end ;;
          for_each urls (fun url =>
            payload <- urlopen_read w url ;; fh_write fh payload) ;;;
          (match filename with
           | PyStr _ => fh_close fh
           | _ => ret tt
           end) ;;;
          service_purgeData w usertoken request_ids
      end
  end.

(** [obspy.core] is not part of this module: its [Stream] class, the
    reader [read] and [Stream.trim] are parameters.  [None] is a call that
    raises. *)
Context {Stream : Type}.
Variable read : list Byte.byte -> string -> option Stream.  (* read(name, format) *)
Variable Stream_new : Stream.                               (* Stream() *)
Variable trim : Stream -> UTCDateTime -> UTCDateTime -> option Stream.

(** [NamedTemporaryFile()]: a new, empty, open file. *)
Definition NamedTemporaryFile : Py State nat :=
  tf <- gets (fun s => length (heap s)) ;;
  modify (fun s => set_heap (heap s ++ [mkFile (tempfile_name w) [] false]) s) ;;;
  modify (emit (Open (tempfile_name w) tf)) ;;;
  ret tf.

(** [read(tf.name, 'MSEED')] parses what the temporary file holds. *)
Definition read_file (tf : nat) (fmt : string) : Py State Stream :=
  files <- gets heap ;;
  match files !! tf with
  | Some f =>
      match read (data f) fmt with
      | Some stream => ret stream
      | None => raise (TypeError "Unknown format")
      end
  | None => raise (IOError (tempfile_name w))
  end.

Definition getWaveform (self : Client)
    (network station location channel : string)
    (starttime endtime : UTCDateTime) (format : string) : Py State Stream :=
  tf <- NamedTemporaryFile ;;
  saveWaveform self (PyFile tf) network station location channel
               starttime endtime format ;;;
  (* tf.seek(0) *)
  stream <- try_except (read_file tf "MSEED") (ret Stream_new) ;;
  fh_close tf ;;;
  try_except (os_remove w (tempfile_name w)) (ret tt) ;;;
  match trim stream starttime endtime with
  | Some trimmed => ret trimmed
  | None => raise (ValueError "trim")
  end.
End Waveform.

(** ** Event search: keyword mapping and normalisation *)

(** [dict(pairs)]: a later pair overrides an earlier one with the same key. *)
Definition py_dict {V} (pairs : list (string * V)) : gmap string V :=
  foldl (fun d kv => <[kv.1 := kv.2]> d) ∅ pairs.

Definition MAP : gmap string string :=
  py_dict
    [("min_datetime", "dateMin"); ("max_datetime", "dateMax");
     ("min_latitude", "latMin"); ("max_latitude", "latMax");
     ("min_longitude", "lonMin"); ("max_longitude", "lonMax");
     ("min_depth", "depthMin"); ("max_depth", "depthMax");
     ("min_magnitude", "magMin"); ("max_magnitude", "magMax");
     ("magnitude_type", "magType"); ("author", "auth");
     ("max_results", "limit"); ("sort_by", "sort"); ("sort_direction", "dir");
     ("format", "format"); ("datetime", "datetime"); ("depth", "depth");
     ("flynn_region", "flynn_region"); ("latitude", "lat");
     ("longitude", "lon"); ("magnitude", "mag"); ("origin_id", "orid");
     ("event_id", "unid")].

Definition MAP_INVERSE : gmap string string :=
  <["magtype" := "magnitude_type"]>
    (py_dict (map (fun kv => (kv.2, kv.1)) (map_to_list MAP))).

(** [[f(x) for x in xs]] with a body that may raise. *)
Fixpoint map_each {St A B} (xs : list A) (f : A -> Py St B) : Py St (list B) :=
  match xs with
  | [] => ret []
  | x :: rest => y <- f x ;; ys <- map_each rest f ;; ret (y :: ys)
  end.

(** [for x in xs: acc = body(x, acc)] *)
Fixpoint fold_each {St A B} (xs : list A) (acc : B) (body : A -> B -> Py St B)
    : Py St B :=
  match xs with
  | [] => ret acc
  | x :: rest => acc' <- body x acc ;; fold_each rest acc' body
  end.

(** [float(n)] for an integer: round to nearest binary64; too large raises. *)
Definition float_of_Z (z : Z) : exn + spec_float :=
  match binary_normalize 53 1024 z 0 false with
  | S754_infinity _ => inl OverflowError
  | f => inr f
  end.

Section Events.
Context {UTCDateTime : Type}.

(** The Python values that travel through the event search. *)
Inductive value : Type :=
| VNone
| VBool (b : bool)
| VInt (z : Z)
| VFloat (f : spec_float)
| VStr (s : string)
| VTime (t : UTCDateTime).

(** One outgoing GET: the address and the parameters [urlencode] receives. *)
Record Request : Type := mkRequest {
  address : string;
  query : gmap string value }.

Variable float_of_string : string -> option spec_float.   (* float("1.5") *)
Variable UTCDateTime_of : value -> option UTCDateTime.    (* UTCDateTime(x) *)
Variable json_loads : string -> option (gmap string (list (gmap string value))).
Variable urlopen_get : Request -> option string.          (* urllib2.urlopen(..).read() *)

(** [bool(v)] *)
Definition truthy (v : value) : bool :=
  match v with
  | VNone => false
  | VBool b => b
  | VInt z => negb (z =? 0)%Z
  | VFloat (S754_zero _) => false
  | VFloat _ => true
  | VStr s => negb (String.eqb s EmptyString)
  | VTime _ => true
  end.

(** [-v] *)
Definition py_neg (v : value) : exn + value :=
  match v with
  | VBool b => inr (VInt (- Z.b2z b))
  | VInt z => inr (VInt (- z))
  | VFloat f => inr (VFloat (SFopp f))
  | _ => inl (TypeError "bad operand type for unary -")
  end.

(** [float(v)].  What [json.loads] returns holds no [UTCDateTime], and
    [float] of one is left out. *)
Definition py_float (v : value) : exn + spec_float :=
  match v with
  | VBool b => float_of_Z (Z.b2z b)
  | VInt z => float_of_Z z
  | VFloat f => inr f
  | VStr s =>
      match float_of_string s with
      | Some f => inr f
      | None => inl (ValueError "could not convert string to float")
      end
  | _ => inl (TypeError "float() argument must be a string or a number")
  end.

(** [v == s] for a string literal [s]. *)
Definition eq_str (v : value) (s : string) : bool :=
  match v with
  | VStr s' => String.eqb s' s
  | _ => false
  end.

Definition lift {St A} (r : exn + A) : Py St A :=
  match r with
  | inl e => raise e
  | inr a => ret a
  end.

(** [d[key]] *)
Definition getitem {St V} (d : gmap string V) (key : string) : Py St V :=
  match d !! key with
  | Some v => ret v
  | None => raise (KeyError key)
  end.

(** Python's binding of a call with positional arguments [args] and keyword
    arguments [kw] to a signature of named parameters, all with defaults,
    followed by a catch-all keyword dictionary: the named ones that were
    given, and what is left for the catch-all. *)
Definition bind_call (names : list string) (args : list value)
    (kw : gmap string value) : exn + (gmap string value * gmap string value) :=
  if (length names <? length args)%nat
  then inl (TypeError "too many positional arguments")
  else if existsb (fun n => bool_decide (is_Some (kw !! n)))
                  (take (length args) names)
  then inl (TypeError "got multiple values for keyword argument")
  else inr (list_to_map (zip names args)
              ∪ filter (fun kv => kv.1 ∈ names) kw,
            filter (fun kv => kv.1 ∉ names) kw).

(** [_mapKwargs]: the decorator. *)
Definition _mapKwargs {St Self A}
    (f : Self -> list value -> gmap string value -> Py St A)
    (self : Self) (args : list value) (kwargs : gmap string value) : Py St A :=
  (* set some default values *)
  let new_kwargs : gmap string value :=
    py_dict [("sort", VStr "datetime"); ("dir", VStr "ASC");
             ("limit", VInt 100); ("format", VStr "list")] in
  let new_kwargs :=
    map_fold (fun key v (acc : gmap string value) =>
                match MAP !! key with
                | Some remote => <[remote := v]> acc
                | None => acc
                end) new_kwargs kwargs in
  v <- f self args new_kwargs ;;
  ret v.

(** [Client._fetch].  The [headers] dictionary is filled in but never handed
    to [urlopen], so the request is the address and the parameters. *)
Definition _fetch (self : Client) (url : string) (params : gmap string value)
    : Py (list Request) string :=
  let remoteaddr := {| address := base_url self ++ url; query := params |} in
  modify (fun log => log ++ [remoteaddr]) ;;;
  answer "urlopen" (urlopen_get remoteaddr).

Definition float_keys : list string :=
  ["depth"; "latitude"; "longitude"; "magnitude"].

(** The body of the loop of [_json2list]: one raw record to one event. *)
Definition _json2list_event {St} (result : gmap string value)
    : Py St (gmap string value) :=
  pairs <- map_each (map_to_list result)
             (fun kv => k <- getitem MAP_INVERSE kv.1 ;; ret (k, kv.2)) ;;
  let event := py_dict pairs in
  event <- fold_each float_keys event (fun k event =>
             v <- getitem event k ;;
             f <- lift (py_float v) ;;
             ret (<[k := VFloat f]> event)) ;;
  magnitude_type <- getitem event "magnitude_type" ;;
  event <- match magnitude_type with
           | VStr s => ret (<["magnitude_type" := VStr (lower s)]> event)
           | _ => raise (AttributeError "lower")
           end ;;
  datetime <- getitem event "datetime" ;;
  event <- match UTCDateTime_of datetime with
           | Some t => ret (<["datetime" := VTime t]> event)
           | None => raise (ValueError "datetime")
           end ;;
  (* convention in ObsPy: all depths negative down *)
  depth <- getitem event "depth" ;;
  negated <- lift (py_neg depth) ;;
  ret (<["depth" := negated]> event).

(** [Client._json2list] *)
Definition _json2list {St} (data : string) : Py St (list (gmap string value)) :=
  match json_loads data with
  | None => raise (ValueError "No JSON object could be decoded")
  | Some results =>
      unids <- getitem results "unids" ;;
      map_each unids _json2list_event
  end.

Inductive EventsResult : Type :=
| EventList (events : list (gmap string value))
| QuakeML (data : string).

Definition getEvents_parameters : list string :=
  ["min_datetime"; "max_datetime"; "min_longitude"; "max_longitude";
   "min_latitude"; "max_latitude"; "min_depth"; "max_depth";
   "min_magnitude"; "max_magnitude"; "magnitude_type"; "author";
   "sort_by"; "sort_direction"; "max_results"; "format"].

(** [if kwargs.get(key): kwargs[key] = -kwargs[key]] *)
Definition switch_depth {St} (key : string) (kwargs : gmap string value)
    : Py St (gmap string value) :=
  match kwargs !! key with
  | Some v =>
      if truthy v
      then negated <- lift (py_neg v) ;; ret (<[key := negated]> kwargs)
      else ret kwargs
  | None => ret kwargs
  end.

(** [Client.getEvents] as written, before the decorator is applied. *)
Definition getEvents_undecorated (self : Client) (args : list value)
    (kw : gmap string value) : Py (list Request) EventsResult :=
  bound <- lift (bind_call getEvents_parameters args kw) ;;
  let format := default (VStr "list") (bound.1 !! "format") in
  let kwargs := bound.2 in
  (* map request format string "list" -> "json" *)
  let kwargs := if eq_str format "list"
                then <["format" := VStr "json"]> kwargs else kwargs in
  (* switch depth to positive down *)
  kwargs <- switch_depth "depthMin" kwargs ;;
  kwargs <- switch_depth "depthMax" kwargs ;;
  (* fetch data *)
  data <- _fetch self "/services/event/search" kwargs ;;
  (* format output *)
  if eq_str format "list"
  then events <- _json2list data ;; ret (EventList events)
  else ret (QuakeML data).

(** [Client.getEvents] *)
Definition getEvents : Client -> list value -> gmap string value ->
    Py (list Request) EventsResult :=
  _mapKwargs getEvents_undecorated.
End Events.

(** ** The other event queries *)

(** [int(f)] for a float: towards zero; infinities and NaN raise. *)
Definition Z_of_float (f : spec_float) : exn + Z :=
  match f with
  | S754_zero _ => inr 0%Z
  | S754_finite s m e =>
      let magnitude := Z.shiftl (Z.pos m) e in
      inr (if s then (- magnitude)%Z else magnitude)
  | S754_infinity _ => inl OverflowError
  | S754_nan => inl (ValueError "cannot convert float NaN to integer")
  end.

Section EventQueries.
Context {UTCDateTime : Type}.
Variable float_of_string : string -> option spec_float.   (* float("1.5") *)
Variable UTCDateTime_of : @value UTCDateTime -> option UTCDateTime.
Variable json_loads :
  string -> option (gmap string (list (gmap string (@value UTCDateTime)))).
Variable urlopen_get : @Request UTCDateTime -> option string.
Variable int_of_string : string -> option Z.              (* int("5") *)
Variable int_of_time : UTCDateTime -> option Z.           (* int(UTCDateTime) *)
Variable str_of_float : spec_float -> string.             (* str(1.5) *)
Variable str_of_time : UTCDateTime -> string.             (* str(UTCDateTime) *)

(** [int(v)] *)
Definition py_int (v : @value UTCDateTime) : exn + Z :=
  match v with
  | VNone => inl (TypeError "int() argument must be a string or a number")
  | VBool b => inr (Z.b2z b)
  | VInt z => inr z
  | VFloat f => Z_of_float f
  | VStr s =>
      match int_of_string s with
      | Some z => inr z
      | None => inl (ValueError "invalid literal for int()")
      end
  | VTime t =>
      match int_of_time t with
      | Some z => inr z
      | None => inl (TypeError "int() argument must be a string or a number")
      end
  end.

(** [str(v)] *)
Definition py_str (v : @value UTCDateTime) : string :=
  match v with
  | VNone => "None"
  | VBool true => "True"
  | VBool false => "False"
  | VInt z => NilZero.string_of_int (Z.to_int z)
  | VFloat f => str_of_float f
  | VStr s => s
  | VTime t => str_of_time t
  end.

(** [Client.getLatestEvents]; the caller's defaults are [num=10] and
    [format="xml"]. *)
Definition getLatestEvents (self : Client) (num format : @value UTCDateTime)
    : Py (list Request) EventsResult :=
  (* parse parameters *)
  let kwargs : gmap string value := ∅ in
  kwargs <- try_except (n <- lift (py_int num) ;; ret (<["num" := VInt n]> kwargs))
                       (ret (<["num" := VInt 10]> kwargs)) ;;
  let kwargs := if eq_str format "list"
                then <["format" := VStr "json"]> kwargs
                else <["format" := VStr "xml"]> kwargs in
  (* fetch data *)
  data <- _fetch urlopen_get self "/services/event/latest" kwargs ;;
  (* format output *)
  if eq_str format "list"
  then events <- _json2list float_of_string UTCDateTime_of json_loads data ;;
       ret (EventList events)
  else ret (QuakeML data).

(** [Client.getEventDetail]; the caller's default is [format="xml"]. *)
Definition getEventDetail (self : Client) (uri format : @value UTCDateTime)
    : Py (list Request) EventsResult :=
  (* parse parameters *)
  let kwargs : gmap string value := ∅ in
  let kwargs := if eq_str format "list"
                then <["format" := VStr "json"]> kwargs
                else <["format" := VStr "xml"]> kwargs in
  let kwargs := if String.prefix "quakeml:" (py_str uri)
                then (* QuakeML-formatted event URI *)
                  <["uri" := VStr (py_str uri)]> kwargs
                else (* EMSC event unique identifier *)
                  <["unid" := VStr (py_str uri)]> kwargs in
  (* fetch data *)
  data <- _fetch urlopen_get self "/services/event/detail" kwargs ;;
  (* format output *)
  if eq_str format "list"
  then events <- _json2list float_of_string UTCDateTime_of json_loads data ;;
       ret (EventList events)
  else ret (QuakeML data).

(** ** Travel times *)

(** One entry of the request list handed to [getArrivalTimes]. *)
Record TauPRequest : Type := mkTauPRequest {
  event_depth : spec_float;
  event_lat : spec_float;
  event_lon : spec_float;
  model : string;
  point_lat : spec_float;
  point_lon : spec_float }.

(** One arrival of the answer: [time._phase] and [time['_time-ms']]. *)
Record ArrivalTime : Type := mkArrivalTime {
  _phase : string;
  _time_ms : @value UTCDateTime }.

(** One item of the answer; [None] is an item without the attribute
    ['arrival-time']. *)
Record TauPItem : Type := mkTauPItem {
  arrival_time : option (list ArrivalTime) }.

(** [client.service.getArrivalTimes] of the travel-time service; [None] is a
    call that raises. *)
Variable getArrivalTimes : list TauPRequest -> option (list TauPItem).

(** [Client.getTravelTimes]: the state is the log of the request lists sent.
    [locations] holds pairs; the caller's defaults are [locations=[]] and
    [model='iasp91']. *)
Definition getTravelTimes (self : Client)
    (latitude longitude depth : @value UTCDateTime)
    (locations : list (@value UTCDateTime * @value UTCDateTime))
    (model : @value UTCDateTime)
    : Py (list (list TauPRequest)) (list (gmap string spec_float)) :=
  (* create request *)
  request <- map_each locations (fun location =>
    event_depth <- lift (py_float float_of_string depth) ;;
    event_lat <- lift (py_float float_of_string latitude) ;;
    event_lon <- lift (py_float float_of_string longitude) ;;
    let model := py_str model in
    point_lat <- lift (py_float float_of_string location.1) ;;
    point_lon <- lift (py_float float_of_string location.2) ;;
    ret (mkTauPRequest event_depth event_lat event_lon model
                       point_lat point_lon)) ;;
  modify (fun log => log ++ [request]) ;;;
  data <- answer "getArrivalTimes" (getArrivalTimes request) ;;
  map_each data (fun item =>
    let times : gmap string spec_float := ∅ in
    match arrival_time item with
    | Some arrivals =>
        fold_each arrivals times (fun time times =>
          t <- lift (py_float float_of_string (_time_ms time)) ;;
          ret (<[_phase time := t]> times))
    | None => ret times
    end).
End EventQueries.

(** ** Vocabulary of the statements *)

(** How many calls of one operation a trace holds. *)
Definition count_calls (op : string) (events : list Event) : nat :=
  length (List.filter (fun e => match e with
                                | Soap _ _ call => String.eqb (operation call) op
                                | _ => false
                                end) events).

(** A scripted status answer on which the loop goes round again. *)
Definition waiting (reply : option (list RoutedRequest)) : Prop :=
  exists r, reply = Some r /\ false_in (map ReadyFlag r) = true.

(** Every readiness flag of the answer reads ["true"]. *)
Definition all_true (r : list RoutedRequest) : bool :=
  forallb (fun rr => String.eqb (ReadyFlag rr) "true") r.

(** The readiness flags of the answer are booleans as the service spells
    them. *)
Definition boolean_flags (r : list RoutedRequest) : Prop :=
  Forall (fun rr => ReadyFlag rr = "true" \/ ReadyFlag rr = "false") r.

Definition sent (hooks : list MessagePlugin) (call : Rpc) : Event :=
  Soap hooks (marshal hooks call) call.

(** The attribute of the Mini-SEED hack is on the first body element. *)
Definition has_DataFormat_MSEED (envelope : Envelope) : Prop :=
  exists foo others, Body envelope = foo :: others /\
    In (mkAttribute "DataFormat" "MSEED") (attributes foo).

(** The download loop only fetches and writes to its one handle. *)
Definition transfer (fh : nat) (e : Event) : Prop :=
  (exists url, e = Urlopen url) \/ (exists payload, e = Write fh payload).

(** The events of a download that goes through: fetch, write, fetch, ... *)
Fixpoint transfers (fh : nat) (urls : list string)
    (payloads : list (list Byte.byte)) : list Event :=
  match urls, payloads with
  | url :: urls', payload :: payloads' =>
      Urlopen url :: Write fh payload :: transfers fh urls' payloads'
  | _, _ => []
  end.

(** The user token and the station filter [saveWaveform] builds. *)
Definition usertoken_of (self : Client) : UserTokenType :=
  {| email := user self; password_ := password self;
     label := replace_char " " "_" (user_agent self); locale := EmptyString |}.

Definition stationid_of {UTCDateTime} (strftime : UTCDateTime -> string)
    (network station location channel : string)
    (starttime endtime : UTCDateTime) : StationIdentifierType :=
  {| NetworkCode := network; StationCode := station;
     ChannelCode := channel; LocId := location;
     beginPosition := strftime starttime;
     endPosition := strftime endtime |}.

(** The plug-in list in force while the data request is sent. *)
Definition hooks_for (format : string) : list MessagePlugin :=
  if String.eqb format "MSEED" then [_RequestMSEEDPlugin] else [].

(** The identifiers kept after polling. *)
Definition fulfilled_ids (r : list RoutedRequest) : list string :=
  map _Id (List.filter fulfilled r).

(** The handle the download loop writes to. *)
Definition sink (filename : PyObject) (s : State) : nat :=
  match filename with
  | PyFile fh => fh
  | _ => length (heap s)
  end.

(** How many status checks the loop makes on a script: it stops at the
    first answer that is not waiting, and a script that runs out costs one
    more, failing, call. *)
Fixpoint polls_needed (script : list (option (list RoutedRequest))) : nat :=
  match script with
  | Some r :: rest =>
      if false_in (map ReadyFlag r) then S (polls_needed rest) else 1
  | _ => 1
  end.

(** What [saveWaveform], started in [s], can do once polling is over:
    retrieve and purge for the fulfilled identifiers of the answer the
    polling stopped at; fetches and writes to the sink; opening and closing
    its own file when given a path. *)
Definition later_event (usertoken : UserTokenType) (filename : PyObject)
    (s : State) (e : Event) : Prop :=
  (exists pre r post,
      pending s = pre ++ Some r :: post /\ Forall waiting pre /\
      false_in (map ReadyFlag r) = false /\
      (e = sent [] (dataRetrieve usertoken (fulfilled_ids r)) \/
       e = sent [] (purgeData usertoken (fulfilled_ids r))))
  \/ transfer (sink filename s) e
  \/ (exists path, filename = PyStr path /\
        (e = Open path (length (heap s)) \/ e = Close (length (heap s)))).

(** The destination can be written to: a path that can be opened, or a
    handle of a file that is open. *)
Definition writable (w : World) (filename : PyObject) (s : State) : Prop :=
  match filename with
  | PyStr path => open_reply w path = true
  | PyFile fh => exists f, heap s !! fh = Some f /\ closed f = false
  | PyOther => False
  end.

Definition opening (filename : PyObject) (s : State) : list Event :=
  match filename with
  | PyStr path => [Open path (length (heap s))]
  | _ => []
  end.

Definition closing (filename : PyObject) (s : State) : list Event :=
  match filename with
  | PyStr _ => [Close (length (heap s))]
  | _ => []
  end.

(** The files after [bytes] went to the destination: a path gives a new,
    closed file holding them; a handle has them appended and stays open. *)
Definition files_after (filename : PyObject) (s : State)
    (bytes : list Byte.byte) : list File :=
  match filename with
  | PyStr path => heap s ++ [mkFile path bytes true]
  | PyFile fh =>
      match heap s !! fh with
      | Some f => <[fh := mkFile (file_name f) (data f ++ bytes) false]> (heap s)
      | None => heap s
      end
  | PyOther => heap s
  end.

(** ** Vocabulary of the statements about the event search *)

(** [MAP] read backwards, before the lower-case ["magtype"] is added. *)
Definition MAP_back : gmap string string :=
  py_dict (map (fun kv => (kv.2, kv.1)) (map_to_list MAP)).

(** Equal as numbers: the same float, or two zeros of either sign. *)
Definition same_number (a b : spec_float) : Prop :=
  a = b \/ exists s1 s2, a = S754_zero s1 /\ b = S754_zero s2.

(** A computation that leaves the state alone. *)
Definition pure {St A} (c : Py St A) : Prop := forall s, snd (c s) = s.

Section EventVocabulary.
Context {UTCDateTime : Type}.

Definition default_kwargs : gmap string (@value UTCDateTime) :=
  py_dict [("sort", VStr "datetime"); ("dir", VStr "ASC");
           ("limit", VInt 100); ("format", VStr "list")].

(** The dictionary the decorator hands to the decorated function. *)
Definition mapped_kwargs (kwargs : gmap string (@value UTCDateTime))
    : gmap string (@value UTCDateTime) :=
  map_fold (fun key v (acc : gmap string value) =>
              match MAP !! key with
              | Some remote => <[remote := v]> acc
              | None => acc
              end) default_kwargs kwargs.

(** The value [switch_depth] leaves under its key. *)
Definition switched (v : @value UTCDateTime) : @value UTCDateTime :=
  if truthy v
  then match py_neg v with
       | inr negated => negated
       | inl _ => v
       end
  else v.

(** [switch_depth] does not raise on this value. *)
Definition switchable (v : @value UTCDateTime) : Prop :=
  truthy v = true -> exists negated, py_neg v = inr negated.

(** The reply format [getEvents] works with. *)
Definition format_of (kwargs : gmap string (@value UTCDateTime))
    : @value UTCDateTime :=
  default (VStr "list") (mapped_kwargs kwargs !! "format").
End EventVocabulary.

(** ** A small service to run the client against *)

Definition example_client : Client :=
  mkClient "http://www.seismicportal.eu" 10 false
           "ObsPy 0.4 (Linux, Python 2.7)" "test@obspy.org" EmptyString.

Definition example_strftime (t : Z) : string :=
  if (t =? 0)%Z then "2009-04-01T00:00:00" else "2009-04-01T00:00:30".

(** Three routed requests; the download of ["a"] and ["b"] can be made to
    fail, and so can the purge. *)
Definition example_world (b_answers purge_answers : bool) : World :=
  {| dataRequest_reply := fun _ _ =>
       Some [mkRoutedRequest "a" "false" "Status: queued" 0;
             mkRoutedRequest "b" "false" "Status: queued" 0;
             mkRoutedRequest "c" "false" "Status: queued" 0];
     dataRetrieve_reply := fun ids =>
       Some (map (fun i => mkDataItem (mkDownloadToken ("http://orfeus/" ++ i))) ids);
     purgeData_reply := fun _ => purge_answers;
     urlopen_reply := fun url =>
       if String.eqb url "http://orfeus/a" then Some [Byte.x01; Byte.x02]
       else if String.eqb url "http://orfeus/b"
            then (if b_answers then Some [Byte.x03] else None)
            else None;
     open_reply := fun _ => true;
     remove_reply := fun _ => true;
     tempfile_name := "/tmp/obspy-tmp" |}.

(** The service that answers the data request with no routed request. *)
Definition empty_world : World :=
  {| dataRequest_reply := fun _ _ => Some [];
     dataRetrieve_reply := fun _ => None;
     purgeData_reply := fun _ => false;
     urlopen_reply := fun _ => None;
     open_reply := fun _ => true;
     remove_reply := fun _ => true;
     tempfile_name := "/tmp/obspy-tmp" |}.

(** ["a"] is ready at the first poll, ["c"] at the second, ["b"] at the
    third; ["c"] ends at 80 percent. *)
Definition example_waiting : list (option (list RoutedRequest)) :=
  [Some [mkRoutedRequest "a" "true" "Status: OK" 100;
         mkRoutedRequest "b" "false" "Status: processing" 40;
         mkRoutedRequest "c" "false" "Status: processing" 10];
   Some [mkRoutedRequest "a" "true" "Status: OK" 100;
         mkRoutedRequest "b" "false" "Status: processing" 90;
         mkRoutedRequest "c" "true" "Status: OK" 80]].

Definition example_ready : list RoutedRequest :=
  [mkRoutedRequest "a" "true" "Status: OK" 100;
   mkRoutedRequest "b" "true" "Request Status: OK" 100;
   mkRoutedRequest "c" "true" "Status: OK" 80].

Definition example_script : list (option (list RoutedRequest)) :=
  example_waiting ++ [Some example_ready].

(** A caller that holds one open, empty file. *)
Definition example_state : State :=
  {| plugins := []; pending := example_script;
     heap := [mkFile "caller.mseed" [] false]; trace := [] |}.

Definition example_run (w : World) (filename : PyObject) (format : string)
    : (exn + unit) * State :=
  saveWaveform example_strftime w example_client filename
               "NL" "WIT" "00" "BH*" 0%Z 30%Z format example_state.

(** A search against a service that is down: the request is still logged. *)
Definition example_search (args : list (@value Z))
    (kwargs : list (string * @value Z)) : list (@Request Z) :=
  snd (getEvents (fun _ => None) (fun _ => None) (fun _ => None) (fun _ => None)
                 example_client args (py_dict kwargs) []).

(** One raw record as the service sends it, and a service that sends it:
    numbers arrive as JSON numbers or as text. *)
Definition example_record : gmap string (@value Z) :=
  py_dict [("depth", VFloat (S754_finite false 5 1)); ("lat", VInt 3);
           ("lon", VInt 95); ("mag", VInt 9); ("magtype", VStr "Mw");
           ("datetime", VStr "2004-12-26T00:58:50Z"); ("auth", VStr "CSEM")].

Definition example_json_loads (data : string)
    : option (gmap string (list (gmap string (@value Z)))) :=
  if String.eqb data "events" then Some {[ "unids" := [example_record] ]}
  else None.

Definition example_UTCDateTime_of (v : @value Z) : option Z :=
  match v with
  | VStr _ => Some 1104022730%Z
  | _ => None
  end.

(** ** The monad *)

Lemma bind_eq {St A B} (c : Py St A) (k : A -> Py St B) (s : St) :
  bind c k s = match c s with
               | (inl e, s') => (inl e, s')
               | (inr a, s') => k a s'
               end.
Proof. reflexivity. Qed.

Lemma state_eta (s : State) :
  {| plugins := plugins s; pending := pending s; heap := heap s; trace := trace s |} = s.
Proof. now destruct s. Qed.

(** ** What one primitive step does *)

Section Primitives.
Variable w : World.

Lemma service_dataRequest_run usertoken stationid s :
  service_dataRequest w usertoken stationid s =
  (match dataRequest_reply w usertoken stationid with
   | Some r => inr r
   | None => inl (TransportError "dataRequest")
   end,
   emit (sent (plugins s) (dataRequest usertoken stationid)) s).
Proof.
  unfold service_dataRequest, send, bind, modify, answer, ret, raise.
  now destruct (dataRequest_reply w usertoken stationid).
Qed.

Lemma service_dataRetrieve_run usertoken request_ids s :
  service_dataRetrieve w usertoken request_ids s =
  (match dataRetrieve_reply w request_ids with
   | Some r => inr r
   | None => inl (TransportError "dataRetrieve")
   end,
   emit (sent (plugins s) (dataRetrieve usertoken request_ids)) s).
Proof.
  unfold service_dataRetrieve, send, bind, modify, answer, ret, raise.
  now destruct (dataRetrieve_reply w request_ids).
Qed.

Lemma service_purgeData_run usertoken request_ids s :
  service_purgeData w usertoken request_ids s =
  (if purgeData_reply w request_ids then inr tt
   else inl (TransportError "purgeData"),
   emit (sent (plugins s) (purgeData usertoken request_ids)) s).
Proof.
  unfold service_purgeData, send, bind, modify, ret, raise.
  now destruct (purgeData_reply w request_ids).
Qed.

Lemma urlopen_read_run url s :
  urlopen_read w url s =
  (match urlopen_reply w url with
   | Some payload => inr payload
   | None => inl (TransportError "urlopen")
   end,
   emit (Urlopen url) s).
Proof.
  unfold urlopen_read, bind, modify, answer, ret, raise.
  now destruct (urlopen_reply w url).
Qed.

Lemma open_wb_run path s :
  open_wb w path s =
  if open_reply w path
  then (inr (length (heap s)),
        emit (Open path (length (heap s)))
             (set_heap (heap s ++ [mkFile path [] false]) s))
  else (inl (IOError path), s).
Proof.
  unfold open_wb, bind, modify, gets, ret, raise.
  now destruct (open_reply w path).
Qed.

Lemma fh_write_run fh payload s :
  fh_write fh payload s =
  match heap s !! fh with
  | Some f =>
      if closed f then (inl (ValueError "I/O operation on closed file"), s)
      else (inr tt,
            emit (Write fh payload)
                 (set_heap (<[fh := mkFile (file_name f) (data f ++ payload) false]> (heap s)) s))
  | None => (inl (ValueError "I/O operation on closed file"), s)
  end.
Proof.
  unfold fh_write, bind, modify, gets, ret, raise.
  destruct (heap s !! fh) as [f|]; trivial. now destruct (closed f).
Qed.

Lemma fh_close_run fh s :
  fh_close fh s =
  (inr tt,
   emit (Close fh)
        (match heap s !! fh with
         | Some f => set_heap (<[fh := mkFile (file_name f) (data f) true]> (heap s)) s
         | None => s
         end)).
Proof.
  unfold fh_close, bind, modify, gets, ret.
  now destruct (heap s !! fh).
Qed.
End Primitives.

(** ** The polling loop *)

Section PollingLoop.
Variable w : World.
Variables (usertoken : UserTokenType) (request_ids : list string).

Lemma poll_waiting (pre : list (option (list RoutedRequest))) :
  forall fuel s rest,
    Forall waiting pre ->
    pending s = pre ++ rest ->
    poll (length pre + fuel) usertoken request_ids s =
    poll fuel usertoken request_ids
      {| plugins := plugins s; pending := rest; heap := heap s;
         trace := trace s ++
                  repeat (sent (plugins s) (checkStatus usertoken request_ids))
                         (length pre) |}.
Proof.
  induction pre as [|reply pre IH]; intros fuel s rest Hpre Hs.
  - simpl in *. rewrite app_nil_r, <- Hs. now rewrite state_eta.
  - inversion Hpre as [|? ? [r [-> Hr]] Hpre']; subst.
    cbn [length Nat.add poll].
    rewrite bind_eq.
    unfold service_checkStatus, send, bind, modify, gets, answer, ret; simpl.
    rewrite Hs; simpl. rewrite Hr.
    erewrite (IH fuel _ rest Hpre') by reflexivity. simpl.
    now rewrite <- app_assoc.
Qed.

Lemma poll_ready fuel s r rest :
  pending s = Some r :: rest ->
  false_in (map ReadyFlag r) = false ->
  poll (S fuel) usertoken request_ids s =
  (inr r, {| plugins := plugins s; pending := rest; heap := heap s;
             trace := trace s ++ [sent (plugins s) (checkStatus usertoken request_ids)] |}).
Proof.
  intros Hs Hr. cbn [poll]. rewrite bind_eq.
  unfold service_checkStatus, send, bind, modify, gets, answer, ret; simpl.
  rewrite Hs; simpl. now rewrite Hr.
Qed.

Lemma poll_raises fuel s rest :
  pending s = None :: rest ->
  poll (S fuel) usertoken request_ids s =
  (inl (TransportError "checkStatus"),
   {| plugins := plugins s; pending := rest; heap := heap s;
      trace := trace s ++ [sent (plugins s) (checkStatus usertoken request_ids)] |}).
Proof.
  intros Hs. cbn [poll]. rewrite bind_eq.
  unfold service_checkStatus, send, bind, modify, gets, answer, ret, raise; simpl.
  now rewrite Hs.
Qed.

Lemma poll_exhausted fuel s :
  pending s = [] ->
  poll (S fuel) usertoken request_ids s =
  (inl (TransportError "checkStatus"),
   {| plugins := plugins s; pending := []; heap := heap s;
      trace := trace s ++ [sent (plugins s) (checkStatus usertoken request_ids)] |}).
Proof.
  intros Hs. cbn [poll]. rewrite bind_eq.
  unfold service_checkStatus, send, bind, modify, gets, answer, ret, raise; simpl.
  rewrite Hs. unfold emit. now rewrite Hs.
Qed.

(** Every script splits into the answers the loop skips and where it stops. *)
Lemma script_split (script : list (option (list RoutedRequest))) :
  exists pre rest,
    script = pre ++ rest /\ Forall waiting pre /\
    match rest with
    | Some r :: _ => false_in (map ReadyFlag r) = false
    | _ => True
    end.
Proof.
  induction script as [|reply script (pre & rest & -> & Hpre & Hrest)].
  - exists [], []. repeat split. constructor.
  - destruct reply as [r|].
    + destruct (false_in (map ReadyFlag r)) eqn:Hr.
      * exists (Some r :: pre), rest. repeat split; trivial.
        constructor; trivial. now exists r.
      * exists [], (Some r :: pre ++ rest). repeat split; trivial.
    + exists [], (None :: pre ++ rest). repeat split; trivial.
Qed.

(** The loop as [saveWaveform] runs it: how many calls it makes and how it
    ends, for any script. *)
Lemma poll_outcome (s : State) :
  exists n res rest,
    poll (S (length (pending s))) usertoken request_ids s =
    (res, {| plugins := plugins s; pending := rest; heap := heap s;
             trace := trace s ++
                      repeat (sent (plugins s) (checkStatus usertoken request_ids)) n |}) /\
    n = polls_needed (pending s) /\
    match res with
    | inr r => exists pre,
        pending s = pre ++ Some r :: rest /\ Forall waiting pre /\
        false_in (map ReadyFlag r) = false
    | inl e => e = TransportError "checkStatus"
    end.
Proof.
  destruct (script_split (pending s)) as (pre & rest & Hs & Hpre & Hrest).
  assert (Hneed : forall tail, polls_needed (pre ++ tail) =
                               (length pre + polls_needed tail)%nat).
  { intros tail. clear Hs. induction Hpre as [|reply pre (r & -> & Hr) _ IH]; trivial.
    simpl. now rewrite Hr, IH. }
  assert (Hfuel : S (length (pending s)) = (length pre + S (length rest))%nat).
  { rewrite Hs, length_app. lia. }
  rewrite Hfuel, (poll_waiting pre _ s rest Hpre Hs).
  set (s1 := {| plugins := plugins s; pending := rest |}).
  assert (Hrep : forall n e (l : list Event),
             (l ++ repeat e n) ++ [e] = l ++ repeat e (S n)).
  { intros n e l. rewrite <- app_assoc. f_equal.
    change [e] with (repeat e 1). rewrite <- repeat_app.
    now rewrite Nat.add_comm. }
  rewrite Hs, Hneed.
  destruct rest as [|[r|] rest].
  - exists (S (length pre)), (inl (TransportError "checkStatus")), [].
    split; [|split; [simpl; lia|trivial]].
    rewrite (poll_exhausted _ s1 eq_refl). subst s1; simpl.
    now rewrite Hrep.
  - exists (S (length pre)), (inr r), rest. split; [|split].
    + rewrite (poll_ready _ s1 r rest eq_refl Hrest). subst s1; simpl.
      now rewrite Hrep.
    + simpl. rewrite Hrest. lia.
    + now exists pre.
  - exists (S (length pre)), (inl (TransportError "checkStatus")), rest.
    split; [|split; [simpl; lia|trivial]].
    rewrite (poll_raises _ s1 rest eq_refl). subst s1; simpl.
    now rewrite Hrep.
Qed.
(** On a script whose first answer that is not waiting is [r], the loop
    returns [r] after one call per answer up to and including [r]. *)
Lemma poll_stops (s : State) pre r post :
  pending s = pre ++ Some r :: post ->
  Forall waiting pre ->
  false_in (map ReadyFlag r) = false ->
  poll (S (length (pending s))) usertoken request_ids s =
  (inr r, {| plugins := plugins s; pending := post; heap := heap s;
             trace := trace s ++
                      repeat (sent (plugins s) (checkStatus usertoken request_ids))
                             (S (length pre)) |}).
Proof.
  intros Hs Hpre Hr.
  replace (S (length (pending s))) with (length pre + S (S (length post)))%nat
    by (rewrite Hs, length_app; simpl; lia).
  rewrite (poll_waiting pre _ s _ Hpre Hs).
  erewrite poll_ready by (simpl; eauto). simpl.
  rewrite <- app_assoc. do 3 f_equal.
  change [sent (plugins s) (checkStatus usertoken request_ids)]
    with (repeat (sent (plugins s) (checkStatus usertoken request_ids)) 1).
  rewrite <- repeat_app, Nat.add_comm. reflexivity.
Qed.
End PollingLoop.

(** ** The download loop *)

Section DownloadLoop.
Variable w : World.
Variable fh : nat.

Local Abbreviation download urls :=
  (for_each urls (fun url => payload <- urlopen_read w url ;; fh_write fh payload)).

(** When every URL answers and the handle is open, the loop appends every
    payload in order. *)
Lemma download_complete (urls : list string) (payloads : list (list Byte.byte)) :
  Forall2 (fun url payload => urlopen_reply w url = Some payload) urls payloads ->
  forall s f,
    heap s !! fh = Some f ->
    closed f = false ->
    download urls s =
    (inr tt,
     {| plugins := plugins s; pending := pending s;
        heap := <[fh := mkFile (file_name f) (data f ++ concat payloads) false]> (heap s);
        trace := trace s ++ transfers fh urls payloads |}).
Proof.
  induction 1 as [|url payload urls payloads Hurl _ IH]; intros s f Hf Hopen.
  - simpl. unfold ret. rewrite !app_nil_r. f_equal.
    destruct s as [pl pe hp tr]; simpl in *. f_equal.
    symmetry. apply list_insert_id. rewrite Hf. f_equal.
    destruct f; simpl in *. now subst.
  - cbn [for_each]. rewrite !bind_eq, urlopen_read_run, Hurl, fh_write_run.
    simpl. rewrite Hf, Hopen.
    assert (Hlt : (fh < length (heap s))%nat) by (eapply lookup_lt_Some; eauto).
    erewrite IH; [|simpl; apply list_lookup_insert_eq; exact Hlt|reflexivity].
    simpl. rewrite list_insert_insert_eq, <- !app_assoc. reflexivity.
Qed.

(** Whatever the URLs answer, the loop adds only fetches and writes to its
    handle, closes nothing, and ends normally only after fetching all. *)
Lemma download_events (urls : list string) :
  forall s, exists res added files,
    download urls s =
    (res, {| plugins := plugins s; pending := pending s; heap := files;
             trace := trace s ++ added |}) /\
    Forall (transfer fh) added /\
    (forall i, closed <$> files !! i = closed <$> heap s !! i) /\
    (res = inr tt ->
     exists payloads,
       Forall2 (fun url payload => urlopen_reply w url = Some payload) urls payloads).
Proof.
  induction urls as [|url urls IH]; intros s.
  - exists (inr tt), [], (heap s). simpl. unfold ret.
    rewrite app_nil_r, state_eta. repeat split; trivial.
    intros _. exists []. constructor.
  - cbn [for_each]. rewrite !bind_eq, urlopen_read_run.
    destruct (urlopen_reply w url) as [payload|] eqn:Hurl.
    + rewrite fh_write_run. simpl.
      destruct (heap s !! fh) as [f|] eqn:Hf.
      * destruct (closed f) eqn:Hopen.
        -- exists (inl (ValueError "I/O operation on closed file")), [Urlopen url], (heap s).
           repeat split; trivial.
           ++ constructor; [left; now exists url|constructor].
           ++ discriminate.
        -- match goal with
           | |- context [for_each urls _ ?s1] =>
               destruct (IH s1) as (res & added & files & -> & Hadd & Hcl & Hok)
           end.
           simpl in *.
           exists res, (Urlopen url :: Write fh payload :: added), files.
           repeat split.
           ++ now rewrite <- !app_assoc.
           ++ constructor; [left; now exists url|].
              constructor; [right; now exists payload|trivial].
           ++ intros i. rewrite Hcl. destruct (decide (i = fh)) as [->|Hne].
              ** rewrite list_lookup_insert_eq by (eapply lookup_lt_Some; eauto).
                 rewrite Hf. simpl. now rewrite Hopen.
              ** now rewrite list_lookup_insert_ne by congruence.
           ++ intros Hres. destruct (Hok Hres) as [payloads Hall].
              exists (payload :: payloads). now constructor.
      * exists (inl (ValueError "I/O operation on closed file")), [Urlopen url], (heap s).
        repeat split; trivial.
        -- constructor; [left; now exists url|constructor].
        -- discriminate.
    + exists (inl (TransportError "urlopen")), [Urlopen url], (heap s).
      repeat split; trivial.
      * constructor; [left; now exists url|constructor].
      * discriminate.
Qed.
End DownloadLoop.

(** ** The shape of every run of [saveWaveform] *)

Section LaterEvents.
Variables (usertoken : UserTokenType) (filename : PyObject) (s : State).

Lemma later_retrieve pre r post :
  pending s = pre ++ Some r :: post -> Forall waiting pre ->
  false_in (map ReadyFlag r) = false ->
  later_event usertoken filename s (sent [] (dataRetrieve usertoken (fulfilled_ids r))).
Proof. intros. left. exists pre, r, post. auto. Qed.

Lemma later_purge pre r post :
  pending s = pre ++ Some r :: post -> Forall waiting pre ->
  false_in (map ReadyFlag r) = false ->
  later_event usertoken filename s (sent [] (purgeData usertoken (fulfilled_ids r))).
Proof. intros. left. exists pre, r, post. auto. Qed.

Lemma later_transfers added :
  Forall (transfer (sink filename s)) added ->
  Forall (later_event usertoken filename s) added.
Proof.
  intros H. eapply Forall_impl; [exact H|].
  intros e He. right; left. exact He.
Qed.

Lemma later_open path :
  filename = PyStr path ->
  later_event usertoken filename s (Open path (length (heap s))).
Proof. intros ->. right; right. exists path. auto. Qed.

Lemma later_close path :
  filename = PyStr path ->
  later_event usertoken filename s (Close (length (heap s))).
Proof. intros ->. right; right. exists path. auto. Qed.
End LaterEvents.

Section Runs.
Context {UTCDateTime : Type}.
Variable strftime : UTCDateTime -> string.
Variable w : World.
Variables (self : Client) (filename : PyObject).
Variables (network station location channel : string).
Variables (starttime endtime : UTCDateTime) (format : string).

Local Abbreviation usertoken := (usertoken_of self).
Local Abbreviation stationid :=
  (stationid_of strftime network station location channel starttime endtime).
Local Abbreviation run :=
  (saveWaveform strftime w self filename network station location channel
                starttime endtime format).

Ltac solve_later :=
  repeat match goal with
         | |- Forall _ (_ ++ _) => apply Forall_app; split
         | |- Forall _ (_ :: _) => constructor
         | |- Forall _ [] => constructor
         | |- later_event _ _ _ (Open _ _) => apply later_open; reflexivity
         | |- later_event _ _ _ (Close _) => eapply later_close; reflexivity
         | _ => assumption
         end.

Ltac hooks_gone :=
  first [ intros _; reflexivity | intros [? [=]] ].

Ltac leave_with n ids tail :=
  eexists _, _, n, ids, tail; split; [reflexivity|];
  split; [cbn [trace emit set_heap repeat];
          rewrite <- ?app_assoc, ?app_nil_r; reflexivity|];
  split; [solve_later|]; split; [hooks_gone|].

Ltac leave :=
  eexists _, _, _, _, _; split; [reflexivity|];
  split; [cbn [trace emit set_heap]; rewrite <- ?app_assoc; reflexivity|];
  split; [solve_later|]; split; [hooks_gone|].

Lemma saveWaveform_events (s : State) :
  exists res s' n ids tail,
    run s = (res, s') /\
    trace s' = trace s ++ sent (hooks_for format) (dataRequest usertoken stationid)
                       :: repeat (sent [] (checkStatus usertoken ids)) n ++ tail /\
    Forall (later_event usertoken filename s) tail /\
    (is_Some (dataRequest_reply w usertoken stationid) -> plugins s' = []) /\
    (forall i, (i < length (heap s))%nat ->
               closed <$> heap s' !! i = closed <$> heap s !! i) /\
    (forall response,
        dataRequest_reply w usertoken stationid = Some response ->
        response <> [] ->
        ids = map _Id response /\ n = polls_needed (pending s)).
Proof.
  unfold saveWaveform. fold usertoken. fold stationid.
  rewrite bind_eq. unfold modify at 1. unfold hooks_for.
  destruct (String.eqb format "MSEED") eqn:Hfmt.
  all: cbv iota; rewrite bind_eq; first [unfold modify at 1 | unfold ret at 1].
  all: rewrite bind_eq, service_dataRequest_run.
  all: destruct (dataRequest_reply w usertoken stationid) as [response|].
  all: cbn [plugins set_plugins].
  2, 4: (leave_with 0%nat (@nil string) (@nil Event);
         split; [reflexivity|discriminate]).
  all: rewrite bind_eq; first [unfold modify at 1 | unfold ret at 1].
  all: destruct (map _Id response) as [|id ids] eqn:Hids;
       [leave_with 0%nat (@nil string) (@nil Event);
        split; [reflexivity|];
        intros ? [= <-] Hne; destruct response; [congruence|discriminate]|].
  all: rewrite bind_eq; unfold gets at 1; cbv beta iota; rewrite bind_eq.
  all: match goal with
       | |- context [poll _ _ _ ?st] =>
           destruct (poll_outcome usertoken (id :: ids) st)
             as (n & polled & rest & Hpoll & Hn & Hpolled)
       end.
  all: rewrite Hpoll; clear Hpoll.
  all: cbn [plugins pending heap trace set_plugins emit] in *.
  all: assert (Hcount : forall response0,
                 Some response = Some response0 -> response0 <> [] ->
                 id :: ids = map _Id response0 /\ n = polls_needed (pending s))
         by (intros ? [= <-] _; now rewrite Hids).
  all: destruct polled as [e|r];
       [leave_with n (id :: ids) (@nil Event); split; [reflexivity|exact Hcount]|].
  all: destruct Hpolled as (pre & Hs & Hpre & Hr).
  all: pose proof (later_retrieve usertoken filename s pre r rest Hs Hpre Hr) as Hret.
  all: pose proof (later_purge usertoken filename s pre r rest Hs Hpre Hr) as Hpur.
  all: fold (fulfilled_ids r) in *.
  all: destruct (fulfilled_ids r) as [|fid fids] eqn:Hfids;
       [leave_with n (id :: ids) (@nil Event); split; [reflexivity|exact Hcount]|].
  all: rewrite bind_eq, service_dataRetrieve_run.
  all: cbn [plugins pending heap trace set_plugins emit] in *.
  all: destruct (dataRetrieve_reply w (fid :: fids)) as [items|];
       [|leave; split; [reflexivity|exact Hcount]].
  all: rewrite bind_eq.
  all: pose proof (later_transfers usertoken filename s) as Htransfers.
  all: destruct filename as [path|fh|].
  (* a path is opened, a file handle is used as it is, anything else is a
     TypeError *)
  all: first [ rewrite open_wb_run; destruct (open_reply w _);
               [|leave; split; [reflexivity|exact Hcount]]
             | unfold raise at 1; leave; split; [reflexivity|exact Hcount]
             | unfold ret at 1 ].
  all: cbv beta iota; rewrite bind_eq.
  all: cbn [plugins pending heap trace set_plugins set_heap emit] in *.
  all: match goal with
       | |- context [for_each ?urls (fun url => bind _ (fun payload => fh_write ?h payload)) ?st] =>
           destruct (download_events w h urls st)
             as (dl & fetched & files & Hdl & Hfetched & Hclosed & _)
       end.
  all: rewrite Hdl; clear Hdl.
  all: cbn [plugins pending heap trace set_plugins set_heap emit] in *.
  all: apply Htransfers in Hfetched.
  all: assert (Hold : forall i, (i < length (heap s))%nat ->
                        closed <$> files !! i = closed <$> heap s !! i)
         by (intros i Hi; rewrite Hclosed; try rewrite lookup_app_l by exact Hi;
             reflexivity).
  all: destruct dl as [e|[]]; [leave; split; [exact Hold|exact Hcount]|].
  (* a path: close, then purge; a file handle: purge *)
  all: rewrite bind_eq;
       first [ rewrite fh_close_run; cbn [heap];
               destruct (files !! length (heap s)) as [f|] eqn:Hf
             | unfold ret at 1 ].
  all: rewrite service_purgeData_run.
  all: cbn [plugins pending heap trace set_plugins set_heap emit] in *.
  all: leave; (split; [|exact Hcount]); try exact Hold.
  all: intros i Hi; cbn [heap emit set_heap];
       rewrite list_lookup_insert_ne by lia; now apply Hold.
Qed.

(** The run up to the download loop, when every step before it succeeds. *)
Ltac reach_download r Hreq Hids Hs Hpre Hr Hfids Hitems :=
  unfold saveWaveform; fold usertoken; fold stationid;
  rewrite bind_eq; unfold modify at 1; unfold hooks_for;
  destruct (String.eqb format "MSEED");
  cbv iota; (rewrite bind_eq; first [unfold modify at 1 | unfold ret at 1]);
  rewrite bind_eq, service_dataRequest_run, Hreq;
  (rewrite bind_eq; first [unfold modify at 1 | unfold ret at 1]);
  rewrite Hids;
  rewrite bind_eq; unfold gets at 1; cbv beta iota; rewrite bind_eq;
  (erewrite poll_stops by (cbn [pending set_plugins emit]; eauto));
  fold (fulfilled_ids r); rewrite Hfids;
  rewrite bind_eq, service_dataRetrieve_run;
  cbn [plugins pending heap trace set_plugins emit];
  rewrite Hitems; rewrite bind_eq.

Section Downloading.
Variables (response : list RoutedRequest) (id : string) (ids : list string).
Variables (pre : list (option (list RoutedRequest))) (r : list RoutedRequest).
Variable post : list (option (list RoutedRequest)).
Variables (fid : string) (fids : list string) (items : list DataItem).
Variable s : State.
Hypothesis Hreq : dataRequest_reply w usertoken stationid = Some response.
Hypothesis Hids : map _Id response = id :: ids.
Hypothesis Hs : pending s = pre ++ Some r :: post.
Hypothesis Hpre : Forall waiting pre.
Hypothesis Hr : false_in (map ReadyFlag r) = false.
Hypothesis Hfids : fulfilled_ids r = fid :: fids.
Hypothesis Hitems : dataRetrieve_reply w (fid :: fids) = Some items.
Hypothesis Hdest : writable w filename s.

Local Abbreviation urls :=
  (map (fun item => DownloadURL (DownloadToken item)) items).

(** Every download succeeds: the payloads reach the destination in order,
    the function closes what it opened, and the purge comes last. *)
Lemma saveWaveform_completes (payloads : list (list Byte.byte)) :
  Forall2 (fun url payload => urlopen_reply w url = Some payload) urls payloads ->
  run s =
  (if purgeData_reply w (fid :: fids) then inr tt
   else inl (TransportError "purgeData"),
   {| plugins := []; pending := post;
      heap := files_after filename s (concat payloads);
      trace := trace s ++
               sent (hooks_for format) (dataRequest usertoken stationid)
               :: repeat (sent [] (checkStatus usertoken (id :: ids))) (S (length pre))
               ++ [sent [] (dataRetrieve usertoken (fid :: fids))]
               ++ opening filename s
               ++ transfers (sink filename s) urls payloads
               ++ closing filename s
               ++ [sent [] (purgeData usertoken (fid :: fids))] |}).
Proof.
  intros Hall.
  reach_download r Hreq Hids Hs Hpre Hr Hfids Hitems.
  all: destruct filename as [path|fh|]; [| |contradiction].
  all: cbn [writable opening closing sink files_after] in *.
  - rewrite open_wb_run, Hdest. cbv beta iota. rewrite bind_eq.
    erewrite download_complete;
      [|exact Hall|cbn [heap emit set_heap]; apply list_lookup_middle; reflexivity
       |reflexivity].
    rewrite bind_eq, fh_close_run. cbn [heap emit set_heap].
    rewrite list_lookup_insert_eq
      by (rewrite length_app; simpl; lia).
    rewrite service_purgeData_run. unfold emit, set_heap.
    cbn [plugins pending heap trace file_name data].
    rewrite list_insert_insert_eq.
    rewrite insert_app_r_alt, Nat.sub_diag by lia.
    simpl. rewrite <- !app_assoc. reflexivity.
  - destruct Hdest as (f & Hf & Hopen). unfold ret at 1. cbv beta iota.
    rewrite bind_eq.
    erewrite download_complete; [|exact Hall|exact Hf|exact Hopen].
    rewrite bind_eq. unfold ret at 1. rewrite service_purgeData_run.
    unfold emit, set_heap. cbn [plugins pending heap trace].
    rewrite Hf, <- !app_assoc. reflexivity.
  - rewrite open_wb_run, Hdest. cbv beta iota. rewrite bind_eq.
    erewrite download_complete;
      [|exact Hall|cbn [heap emit set_heap]; apply list_lookup_middle; reflexivity
       |reflexivity].
    rewrite bind_eq, fh_close_run. cbn [heap emit set_heap].
    rewrite list_lookup_insert_eq
      by (rewrite length_app; simpl; lia).
    rewrite service_purgeData_run. unfold emit, set_heap.
    cbn [plugins pending heap trace file_name data].
    rewrite list_insert_insert_eq.
    rewrite insert_app_r_alt, Nat.sub_diag by lia.
    simpl. rewrite <- !app_assoc. reflexivity.
  - destruct Hdest as (f & Hf & Hopen). unfold ret at 1. cbv beta iota.
    rewrite bind_eq.
    erewrite download_complete; [|exact Hall|exact Hf|exact Hopen].
    rewrite bind_eq. unfold ret at 1. rewrite service_purgeData_run.
    unfold emit, set_heap. cbn [plugins pending heap trace].
    rewrite Hf, <- !app_assoc. reflexivity.
Qed.

(** One download fails: the exception leaves the function at once, after
    nothing but fetches and writes. *)
Lemma saveWaveform_download_fails (url : string) :
  In url urls ->
  urlopen_reply w url = None ->
  exists e s' tail,
    run s = (inl e, s') /\
    trace s' = trace s ++
               sent (hooks_for format) (dataRequest usertoken stationid)
               :: repeat (sent [] (checkStatus usertoken (id :: ids))) (S (length pre))
               ++ [sent [] (dataRetrieve usertoken (fid :: fids))]
               ++ opening filename s ++ tail /\
    Forall (transfer (sink filename s)) tail.
Proof.
  intros Hin Hnone.
  assert (Hstuck : forall payloads,
             ~ Forall2 (fun url payload => urlopen_reply w url = Some payload)
                 urls payloads).
  { intros payloads Hall. revert Hin.
    induction Hall as [|u p us ps Hu _ IH]; simpl; [tauto|].
    intros [->|Hin]; [congruence|auto]. }
  reach_download r Hreq Hids Hs Hpre Hr Hfids Hitems.
  all: destruct filename as [path|fh|]; [| |contradiction].
  all: cbn [writable opening closing sink] in *.
  all: first [rewrite open_wb_run, Hdest | unfold ret at 1].
  all: cbv beta iota; rewrite bind_eq.
  all: match goal with
       | |- context [for_each ?us (fun url => bind _ (fun payload => fh_write ?h payload)) ?st] =>
           destruct (download_events w h us st)
             as (dl & fetched & files & Hdl & Hfetched & _ & Hok)
       end.
  all: rewrite Hdl; clear Hdl.
  all: destruct dl as [e|[]];
       [|destruct (Hok eq_refl) as [payloads Hall]; now apply Hstuck in Hall].
  all: exists e; eexists _, fetched; split; [reflexivity|].
  all: split; [|exact Hfetched].
  all: cbn [trace emit set_heap]; rewrite <- !app_assoc; reflexivity.
Qed.
End Downloading.
End Runs.

(** ** Counting calls *)

#[local] Arguments String.eqb : simpl never.

Lemma count_calls_app op (a b : list Event) :
  count_calls op (a ++ b) = (count_calls op a + count_calls op b)%nat.
Proof. unfold count_calls. now rewrite List.filter_app, length_app. Qed.

Lemma count_calls_checks op hooks usertoken ids n :
  count_calls op (repeat (sent hooks (checkStatus usertoken ids)) n) =
  if String.eqb "checkStatus" op then n else 0%nat.
Proof.
  unfold count_calls. induction n as [|n IH]; simpl.
  - now destruct (String.eqb "checkStatus" op).
  - destruct (String.eqb "checkStatus" op); simpl; now rewrite IH.
Qed.

Lemma count_calls_transfers op fh (added : list Event) :
  Forall (transfer fh) added -> count_calls op added = 0%nat.
Proof.
  unfold count_calls.
  induction 1 as [|e added [[url ->]|[payload ->]] _ IH]; simpl; trivial.
Qed.

Lemma count_checks_later usertoken filename s (tail : list Event) :
  Forall (later_event usertoken filename s) tail ->
  count_calls "checkStatus" tail = 0%nat.
Proof.
  unfold count_calls.
  induction 1 as [|e tail He _ IH]; simpl; trivial.
  destruct He as [(pre & r & post & _ & _ & _ & [-> | ->])
                 |[[[url ->]|[payload ->]]|(path & _ & [-> | ->])]];
    simpl; exact IH.
Qed.

(** ** Properties of the waveform workflow *)

(** C4. When the answer to the data request holds no routed request,
    [saveWaveform] returns normally having sent nothing but the data
    request: no status check, retrieve or purge call is made (the trace
    grows by the data request alone, the status script is untouched) and
    no byte is written (no file is created or changed). *)
Theorem no_routes_no_calls {UTCDateTime : Type} (strftime : UTCDateTime -> string)
    (w : World) (self : Client) (filename : PyObject)
    (network station location channel : string)
    (starttime endtime : UTCDateTime) (format : string) (s : State) :
  dataRequest_reply w (usertoken_of self)
    (stationid_of strftime network station location channel starttime endtime)
  = Some [] ->
  exists s',
    saveWaveform strftime w self filename network station location channel
                 starttime endtime format s = (inr tt, s') /\
    trace s' = trace s ++
      [sent (hooks_for format)
            (dataRequest (usertoken_of self)
               (stationid_of strftime network station location channel
                             starttime endtime))] /\
    heap s' = heap s /\
    pending s' = pending s /\
    (forall op, op <> "dataRequest" ->
                count_calls op (trace s') = count_calls op (trace s)).
Proof.
  intros Hreq.
  unfold saveWaveform.
  fold (usertoken_of self).
  fold (stationid_of strftime network station location channel starttime endtime).
  rewrite bind_eq. unfold modify at 1. unfold hooks_for.
  destruct (String.eqb format "MSEED").
  all: cbv iota; rewrite bind_eq; first [unfold modify at 1 | unfold ret at 1].
  all: rewrite bind_eq, service_dataRequest_run, Hreq.
  all: rewrite bind_eq; first [unfold modify at 1 | unfold ret at 1].
  all: cbn [map]; unfold ret.
  all: eexists; split; [reflexivity|].
  all: cbn [trace heap pending plugins emit set_plugins].
  all: repeat split.
  all: intros op Hop; rewrite count_calls_app; unfold count_calls at 2; simpl.
  all: destruct (String.eqb_spec "dataRequest" op); [congruence|simpl; lia].
Qed.

Lemma no_routes_no_calls_witness :
  exists s',
    example_run empty_world (PyStr "out.mseed") "MSEED" = (inr tt, s') /\
    trace s' = trace example_state ++
      [sent (hooks_for "MSEED")
            (dataRequest (usertoken_of example_client)
               (stationid_of example_strftime "NL" "WIT" "00" "BH*" 0%Z 30%Z))] /\
    heap s' = heap example_state /\
    pending s' = pending example_state /\
    (forall op, op <> "dataRequest" ->
                count_calls op (trace s') = count_calls op (trace example_state)).
Proof.
  exact (no_routes_no_calls example_strftime empty_world example_client
           (PyStr "out.mseed") "NL" "WIT" "00" "BH*" 0%Z 30%Z "MSEED"
           example_state eq_refl).
Defined.

(** With boolean flags, "no flag reads false" is "every flag reads true". *)
Lemma all_true_false_in (r : list RoutedRequest) :
  boolean_flags r -> all_true r = negb (false_in (map ReadyFlag r)).
Proof.
  unfold all_true, false_in.
  induction 1 as [|rr r [Hflag|Hflag] _ IH]; simpl; trivial;
    rewrite Hflag, IH; reflexivity.
Qed.

Lemma not_all_true_waiting (pre : list (option (list RoutedRequest))) :
  Forall (fun reply => exists r, reply = Some r /\ boolean_flags r /\
                                 all_true r = false) pre ->
  Forall waiting pre.
Proof.
  intros H. eapply Forall_impl; [exact H|].
  intros reply (r & -> & Hbool & Hfalse). exists r. split; trivial.
  rewrite (all_true_false_in r Hbool) in Hfalse.
  now destruct (false_in (map ReadyFlag r)).
Qed.



Lemma example_waiting_not_ready :
  Forall (fun reply => exists r', reply = Some r' /\ boolean_flags r' /\
                                  all_true r' = false) example_waiting.
Proof.
  unfold example_waiting, boolean_flags.
  repeat (constructor;
          [eexists; split; [reflexivity|]; split; [|reflexivity];
           repeat (constructor;
                   [first [left; reflexivity | right; reflexivity]|]);
           constructor|]).
  constructor.
Defined.



(** The answer the polling stops at is determined by the script. *)
Lemma first_ready_unique pre r post pre' r' post' :
  pre ++ Some r :: post = pre' ++ Some r' :: post' ->
  Forall waiting pre -> Forall waiting pre' ->
  false_in (map ReadyFlag r) = false ->
  false_in (map ReadyFlag r') = false ->
  r = r'.
Proof.
  intros Heq Hpre. revert pre' Heq.
  induction Hpre as [|reply pre (r0 & -> & Hr0) _ IH];
    intros [|reply' pre'] Heq Hpre' Hr Hr'; simpl in Heq.
  - congruence.
  - inversion Hpre' as [|? ? (r1 & -> & Hr1) _]; subst.
    injection Heq as -> _. congruence.
  - injection Heq as -> _. congruence.
  - injection Heq as _ Heq. inversion Hpre'; subst. eauto.
Qed.

Lemma fulfilled_ids_spec (r : list RoutedRequest) (id : string) :
  In id (fulfilled_ids r) <->
  exists rr, In rr r /\ _Id rr = id /\ Fulfillment rr = 100%Z /\
             str_in "Status: OK" (StatusDescription rr) = true.
Proof.
  unfold fulfilled_ids. rewrite List.in_map_iff. split.
  - intros (rr & Hid & Hin). apply List.filter_In in Hin as [Hin Hok].
    unfold fulfilled in Hok. apply andb_true_iff in Hok as [Hstatus Hfull].
    apply Z.eqb_eq in Hfull. now exists rr.
  - intros (rr & Hin & Hid & Hfull & Hstatus). exists rr. split; trivial.
    apply List.filter_In. split; trivial.
    unfold fulfilled. rewrite Hstatus, Hfull. reflexivity.
Qed.

(** C3. Whatever the service answers, a run of [saveWaveform] is the data
    request, then the status checks, then the rest, and the rest holds no
    status check: nothing is asked again once the polling is over.  Every
    retrieve call and every purge call of the rest carries exactly the
    identifiers of the routed requests, in the status answer the polling
    stopped at, whose [Fulfillment] is 100 and whose [StatusDescription]
    contains ["Status: OK"]; the others are in neither call. *)
Theorem only_fulfilled_requests_retrieved_and_purged
    {UTCDateTime : Type} (strftime : UTCDateTime -> string)
    (w : World) (self : Client) (filename : PyObject)
    (network station location channel : string)
    (starttime endtime : UTCDateTime) (format : string) (s : State)
    (pre : list (option (list RoutedRequest))) (r : list RoutedRequest)
    (post : list (option (list RoutedRequest))) :
  pending s = pre ++ Some r :: post ->
  Forall waiting pre ->
  false_in (map ReadyFlag r) = false ->
  exists n polled rest,
    trace (snd (saveWaveform strftime w self filename network station location
                  channel starttime endtime format s))
    = trace s
      ++ sent (hooks_for format)
              (dataRequest (usertoken_of self)
                 (stationid_of strftime network station location channel
                               starttime endtime))
      :: repeat (sent [] (checkStatus (usertoken_of self) polled)) n
      ++ rest /\
    count_calls "checkStatus" rest = 0%nat /\
    forall hooks envelope usertoken ids,
      In (Soap hooks envelope (dataRetrieve usertoken ids)) rest \/
      In (Soap hooks envelope (purgeData usertoken ids)) rest ->
      ids = map _Id (List.filter fulfilled r) /\
      forall id, In id ids <->
                 exists rr, In rr r /\ _Id rr = id /\ Fulfillment rr = 100%Z /\
                            str_in "Status: OK" (StatusDescription rr) = true.
Proof.
  intros Hs Hpre Hr.
  destruct (saveWaveform_events strftime w self filename network station
              location channel starttime endtime format s)
    as (res & s' & n & ids0 & tail & Hrun & Htrace & Hlater & _).
  rewrite Hrun. cbn [snd]. exists n, ids0, tail. split; [exact Htrace|].
  split; [exact (count_checks_later _ _ _ _ Hlater)|].
  intros hooks envelope usertoken ids Hin.
  assert (Hids : ids = fulfilled_ids r).
  { assert (Hcases : exists call,
               (call = dataRetrieve usertoken ids \/ call = purgeData usertoken ids) /\
               In (Soap hooks envelope call) tail).
    { destruct Hin as [Hin|Hin];
        [exists (dataRetrieve usertoken ids)|exists (purgeData usertoken ids)];
        auto. }
    destruct Hcases as (call & Hcall & Hin').
    rewrite Forall_forall in Hlater.
    apply list_elem_of_In, Hlater in Hin'.
    destruct Hin' as [(pre' & r' & post' & Hs' & Hpre' & Hr' & Hev)
                     |[[[url Hev]|[payload Hev]]|(path & _ & [Hev|Hev])]];
      try discriminate Hev.
    rewrite Hs in Hs'.
    rewrite (first_ready_unique _ _ _ _ _ _ Hs' Hpre Hpre' Hr Hr').
    unfold sent in Hev.
    destruct Hcall as [-> | ->], Hev as [Hev|Hev]; congruence. }
  split; [exact Hids|]. intros id. rewrite Hids. apply fulfilled_ids_spec.
Qed.

Lemma only_fulfilled_requests_retrieved_and_purged_witness :
  (exists n polled rest,
    trace (snd (example_run (example_world true true) (PyStr "out.mseed") "MSEED"))
    = trace example_state
      ++ sent (hooks_for "MSEED")
              (dataRequest (usertoken_of example_client)
                 (stationid_of example_strftime "NL" "WIT" "00" "BH*" 0%Z 30%Z))
      :: repeat (sent [] (checkStatus (usertoken_of example_client) polled)) n
      ++ rest /\
    count_calls "checkStatus" rest = 0%nat /\
    forall hooks envelope usertoken ids,
      In (Soap hooks envelope (dataRetrieve usertoken ids)) rest \/
      In (Soap hooks envelope (purgeData usertoken ids)) rest ->
      ids = map _Id (List.filter fulfilled example_ready) /\
      forall id, In id ids <->
                 exists rr, In rr example_ready /\ _Id rr = id /\
                            Fulfillment rr = 100%Z /\
                            str_in "Status: OK" (StatusDescription rr) = true) /\
  map _Id (List.filter fulfilled example_ready) = ["a"; "b"] /\
  List.filter (fun e => match e with
                        | Soap _ _ (dataRetrieve _ _) | Soap _ _ (purgeData _ _) => true
                        | _ => false
                        end)
    (trace (snd (example_run (example_world true true) (PyStr "out.mseed") "MSEED")))
  = [sent [] (dataRetrieve (usertoken_of example_client) ["a"; "b"]);
     sent [] (purgeData (usertoken_of example_client) ["a"; "b"])].
Proof.
  split; [|split; vm_compute; reflexivity].
  exact (only_fulfilled_requests_retrieved_and_purged example_strftime
           (example_world true true) example_client (PyStr "out.mseed")
           "NL" "WIT" "00" "BH*" 0%Z 30%Z "MSEED" example_state
           example_waiting example_ready [] eq_refl
           (not_all_true_waiting _ example_waiting_not_ready) eq_refl).
Defined.

Lemma nonempty_cons {A} (l : list A) : l <> [] -> exists x l', l = x :: l'.
Proof. destruct l as [|x l']; [congruence|eauto]. Qed.

Lemma count_calls_opening op filename s : count_calls op (opening filename s) = 0%nat.
Proof. now destruct filename. Qed.

Lemma count_calls_closing op filename s : count_calls op (closing filename s) = 0%nat.
Proof. now destruct filename. Qed.

Lemma transfers_transfer fh urls payloads :
  Forall (transfer fh) (transfers fh urls payloads).
Proof.
  revert payloads. induction urls as [|url urls IH]; intros [|payload payloads];
    simpl; try constructor.
  - left. now exists url.
  - constructor; [right; now exists payload|apply IH].
Qed.

(** C5. When the data request, the polling and the retrieval go through,
    the destination can be written and every download URL answers, the
    destination holds the payloads concatenated in the order of the
    retrieval answer (a path: a new file with exactly these bytes; a handle:
    appended to what it held), and the trace ends with the writes, the
    closing of the function's own file, and one purge call for the
    fulfilled identifiers; no purge call comes earlier. *)
Theorem payloads_in_order_then_one_purge
    {UTCDateTime : Type} (strftime : UTCDateTime -> string)
    (w : World) (self : Client) (filename : PyObject)
    (network station location channel : string)
    (starttime endtime : UTCDateTime) (format : string) (s : State)
    (response : list RoutedRequest)
    (pre : list (option (list RoutedRequest))) (r : list RoutedRequest)
    (post : list (option (list RoutedRequest)))
    (items : list DataItem) (payloads : list (list Byte.byte)) :
  dataRequest_reply w (usertoken_of self)
    (stationid_of strftime network station location channel starttime endtime)
  = Some response ->
  response <> [] ->
  pending s = pre ++ Some r :: post ->
  Forall waiting pre ->
  false_in (map ReadyFlag r) = false ->
  fulfilled_ids r <> [] ->
  dataRetrieve_reply w (fulfilled_ids r) = Some items ->
  writable w filename s ->
  Forall2 (fun url payload => urlopen_reply w url = Some payload)
          (map (fun item => DownloadURL (DownloadToken item)) items) payloads ->
  exists s' before,
    saveWaveform strftime w self filename network station location channel
                 starttime endtime format s =
    (if purgeData_reply w (fulfilled_ids r) then inr tt
     else inl (TransportError "purgeData"), s') /\
    heap s' = files_after filename s (concat payloads) /\
    trace s' = trace s ++ before
               ++ transfers (sink filename s)
                    (map (fun item => DownloadURL (DownloadToken item)) items)
                    payloads
               ++ closing filename s
               ++ [sent [] (purgeData (usertoken_of self) (fulfilled_ids r))] /\
    count_calls "purgeData" before = 0%nat.
Proof.
  intros Hreq Hne Hs Hpre Hr Hfne Hitems Hdest Hall.
  destruct (nonempty_cons _ Hfne) as (fid & fids & Hfids).
  assert (Hids : exists id ids, map _Id response = id :: ids).
  { destruct response as [|rr rest]; [congruence|simpl; eauto]. }
  destruct Hids as (id & ids & Hids).
  rewrite Hfids in *.
  rewrite (saveWaveform_completes strftime w self filename network station
             location channel starttime endtime format response id ids pre r
             post fid fids items s Hreq Hids Hs Hpre Hr Hfids Hitems Hdest
             payloads Hall).
  eexists _, ([sent (hooks_for format) (dataRequest _ _)]
               ++ repeat (sent [] (checkStatus (usertoken_of self) (id :: ids)))
                         (S (length pre))
               ++ [sent [] (dataRetrieve (usertoken_of self) (fid :: fids))]
               ++ opening filename s).
  split; [reflexivity|].
  cbn [heap trace]. split; [reflexivity|]. split.
  - rewrite <- !app_assoc. reflexivity.
  - rewrite !count_calls_app, count_calls_checks, count_calls_opening.
    change (String.eqb "checkStatus" "purgeData") with false.
    reflexivity.
Qed.

Lemma example_urls_answer (purge_answers : bool) :
  Forall2 (fun url payload =>
             urlopen_reply (example_world true purge_answers) url = Some payload)
          (map (fun item => DownloadURL (DownloadToken item))
               [mkDataItem (mkDownloadToken "http://orfeus/a");
                mkDataItem (mkDownloadToken "http://orfeus/b")])
          [[Byte.x01; Byte.x02]; [Byte.x03]].
Proof. repeat constructor. Defined.

Lemma payloads_in_order_then_one_purge_witness :
  exists s' before,
    example_run (example_world true true) (PyFile 0) "MSEED" = (inr tt, s') /\
    heap s' = [mkFile "caller.mseed" [Byte.x01; Byte.x02; Byte.x03] false] /\
    trace s' = trace example_state ++ before
               ++ [Urlopen "http://orfeus/a"; Write 0 [Byte.x01; Byte.x02];
                   Urlopen "http://orfeus/b"; Write 0 [Byte.x03]]
               ++ []
               ++ [sent [] (purgeData (usertoken_of example_client) ["a"; "b"])] /\
    count_calls "purgeData" before = 0%nat.
Proof.
  exact (payloads_in_order_then_one_purge example_strftime
           (example_world true true) example_client (PyFile 0)
           "NL" "WIT" "00" "BH*" 0%Z 30%Z "MSEED" example_state
           _ example_waiting example_ready [] _ _
           eq_refl ltac:(discriminate) eq_refl
           (not_all_true_waiting _ example_waiting_not_ready) eq_refl
           ltac:(discriminate) eq_refl
           (ex_intro _ _ (conj eq_refl eq_refl))
           (example_urls_answer true)).
Defined.

(** C1, as the code has it.  Once the retrieval has answered and the
    destination can be written: when every download succeeds, the purge is
    the last call, made once with the fulfilled identifiers, and its
    outcome, a failure included, is what the caller gets; when a download
    fails, the exception leaves [saveWaveform] and no purge call is made. *)
Theorem purge_follows_complete_download
    {UTCDateTime : Type} (strftime : UTCDateTime -> string)
    (w : World) (self : Client) (filename : PyObject)
    (network station location channel : string)
    (starttime endtime : UTCDateTime) (format : string) (s : State)
    (response : list RoutedRequest)
    (pre : list (option (list RoutedRequest))) (r : list RoutedRequest)
    (post : list (option (list RoutedRequest))) (items : list DataItem) :
  dataRequest_reply w (usertoken_of self)
    (stationid_of strftime network station location channel starttime endtime)
  = Some response ->
  response <> [] ->
  pending s = pre ++ Some r :: post ->
  Forall waiting pre ->
  false_in (map ReadyFlag r) = false ->
  fulfilled_ids r <> [] ->
  dataRetrieve_reply w (fulfilled_ids r) = Some items ->
  writable w filename s ->
  (forall payloads,
      Forall2 (fun url payload => urlopen_reply w url = Some payload)
              (map (fun item => DownloadURL (DownloadToken item)) items) payloads ->
      exists s' before,
        saveWaveform strftime w self filename network station location channel
                     starttime endtime format s =
        (if purgeData_reply w (fulfilled_ids r) then inr tt
         else inl (TransportError "purgeData"), s') /\
        trace s' = trace s ++ before
                   ++ [sent [] (purgeData (usertoken_of self) (fulfilled_ids r))] /\
        count_calls "purgeData" before = 0%nat) /\
  (forall url,
      In url (map (fun item => DownloadURL (DownloadToken item)) items) ->
      urlopen_reply w url = None ->
      exists e s' added,
        saveWaveform strftime w self filename network station location channel
                     starttime endtime format s = (inl e, s') /\
        trace s' = trace s ++ added /\
        count_calls "purgeData" added = 0%nat).
Proof.
  intros Hreq Hne Hs Hpre Hr Hfne Hitems Hdest.
  destruct (nonempty_cons _ Hfne) as (fid & fids & Hfids).
  assert (Hids : exists id ids, map _Id response = id :: ids).
  { destruct response as [|rr rest]; [congruence|simpl; eauto]. }
  destruct Hids as (id & ids & Hids).
  rewrite Hfids in *.
  split.
  - intros payloads Hall.
    rewrite (saveWaveform_completes strftime w self filename network station
               location channel starttime endtime format response id ids pre r
               post fid fids items s Hreq Hids Hs Hpre Hr Hfids Hitems Hdest
               payloads Hall).
    eexists _, ([sent (hooks_for format) (dataRequest _ _)]
                 ++ repeat (sent [] (checkStatus (usertoken_of self) (id :: ids)))
                           (S (length pre))
                 ++ [sent [] (dataRetrieve (usertoken_of self) (fid :: fids))]
                 ++ opening filename s
                 ++ transfers (sink filename s)
                      (map (fun item => DownloadURL (DownloadToken item)) items)
                      payloads
                 ++ closing filename s).
    split; [reflexivity|]. cbn [trace]. split.
    + rewrite <- !app_assoc. reflexivity.
    + rewrite !count_calls_app, count_calls_checks, count_calls_opening,
              count_calls_closing,
              (count_calls_transfers _ _ _ (transfers_transfer _ _ _)).
      change (String.eqb "checkStatus" "purgeData") with false.
      reflexivity.
  - intros url Hin Hnone.
    destruct (saveWaveform_download_fails strftime w self filename network
                station location channel starttime endtime format response
                id ids pre r post fid fids items s Hreq Hids Hs Hpre Hr Hfids
                Hitems Hdest url Hin Hnone)
      as (e & s' & tail & Hrun & Htrace & Htail).
    exists e, s'. eexists. split; [exact Hrun|]. split; [exact Htrace|].
    change (?x :: ?l) with ([x] ++ l).
    rewrite !count_calls_app, count_calls_checks, count_calls_opening,
            (count_calls_transfers _ _ _ Htail).
    change (String.eqb "checkStatus" "purgeData") with false.
    reflexivity.
Qed.

Lemma purge_follows_complete_download_witness :
  (exists s' before,
      example_run (example_world true false) (PyStr "out.mseed") "MSEED" =
      (inl (TransportError "purgeData"), s') /\
      trace s' = trace example_state ++ before
                 ++ [sent [] (purgeData (usertoken_of example_client) ["a"; "b"])] /\
      count_calls "purgeData" before = 0%nat) /\
  (exists e s' added,
      example_run (example_world false true) (PyStr "out.mseed") "MSEED" = (inl e, s') /\
      trace s' = trace example_state ++ added /\
      count_calls "purgeData" added = 0%nat).
Proof.
  split.
  - exact (proj1 (purge_follows_complete_download example_strftime
                    (example_world true false) example_client (PyStr "out.mseed")
                    "NL" "WIT" "00" "BH*" 0%Z 30%Z "MSEED" example_state
                    _ example_waiting example_ready [] _
                    eq_refl ltac:(discriminate) eq_refl
                    (not_all_true_waiting _ example_waiting_not_ready) eq_refl
                    ltac:(discriminate) eq_refl eq_refl)
                 _ (example_urls_answer false)).
  - exact (proj2 (purge_follows_complete_download example_strftime
                    (example_world false true) example_client (PyStr "out.mseed")
                    "NL" "WIT" "00" "BH*" 0%Z 30%Z "MSEED" example_state
                    _ example_waiting example_ready [] _
                    eq_refl ltac:(discriminate) eq_refl
                    (not_all_true_waiting _ example_waiting_not_ready) eq_refl
                    ltac:(discriminate) eq_refl eq_refl)
                 "http://orfeus/b" ltac:(simpl; auto) eq_refl).
Defined.

(** C1 does not hold as stated, twice over.  With the second of two downloads
    failing, [saveWaveform] raises after the retrieval and makes no purge
    call; with every download succeeding and the purge failing, the purge
    failure is what the caller gets. *)
Lemma purge_skipped_and_purge_failure_raised :
  (fst (example_run (example_world false true) (PyStr "out.mseed") "MSEED")
   = inl (TransportError "urlopen") /\
   count_calls "dataRetrieve"
     (trace (snd (example_run (example_world false true) (PyStr "out.mseed") "MSEED")))
   = 1%nat /\
   count_calls "purgeData"
     (trace (snd (example_run (example_world false true) (PyStr "out.mseed") "MSEED")))
   = 0%nat) /\
  fst (example_run (example_world true false) (PyStr "out.mseed") "MSEED")
  = inl (TransportError "purgeData").
Proof. vm_compute. repeat split. Qed.

(** ** The Mini-SEED hook *)

Lemma marshal_without_hooks (call : Rpc) :
  ~ has_DataFormat_MSEED (marshal [] call).
Proof.
  intros (foo & others & Hbody & Hin). simpl in Hbody.
  injection Hbody as <- _. exact Hin.
Qed.

Lemma marshal_data_request usertoken stationid :
  has_DataFormat_MSEED
    (marshal [_RequestMSEEDPlugin] (dataRequest usertoken stationid)).
Proof.
  eexists _, _. split; [vm_compute; reflexivity|]. left. reflexivity.
Qed.

(** C6. In every run of [saveWaveform], whatever plug-in list an earlier
    call left behind, a sent envelope carries [DataFormat="MSEED"] exactly
    when it is the [dataRequest] and [format] is ["MSEED"]; every other call
    of the run goes out with no plug-in installed, and once the data request
    has answered the plug-in list is empty when [saveWaveform] ends. *)
Theorem mseed_attribute_only_on_data_request
    {UTCDateTime : Type} (strftime : UTCDateTime -> string)
    (w : World) (self : Client) (filename : PyObject)
    (network station location channel : string)
    (starttime endtime : UTCDateTime) (format : string) (s : State) :
  exists added,
    trace (snd (saveWaveform strftime w self filename network station location
                  channel starttime endtime format s)) = trace s ++ added /\
    (forall hooks envelope call,
        In (Soap hooks envelope call) added ->
        (has_DataFormat_MSEED envelope <->
         operation call = "dataRequest" /\ format = "MSEED") /\
        (operation call <> "dataRequest" -> hooks = [])) /\
    (is_Some (dataRequest_reply w (usertoken_of self)
                (stationid_of strftime network station location channel
                              starttime endtime)) ->
     plugins (snd (saveWaveform strftime w self filename network station
                     location channel starttime endtime format s)) = []).
Proof.
  destruct (saveWaveform_events strftime w self filename network station
              location channel starttime endtime format s)
    as (res & s' & n & ids0 & tail & Hrun & Htrace & Hlater & Hplugins & _).
  rewrite Hrun. cbn [snd]. eexists. split; [exact Htrace|].
  split; [|exact Hplugins].
  assert (Hplain : forall hooks envelope call call',
             Soap hooks envelope call = sent [] call' ->
             operation call' <> "dataRequest" ->
             (has_DataFormat_MSEED envelope <->
              operation call = "dataRequest" /\ format = "MSEED") /\
             (operation call <> "dataRequest" -> hooks = [])).
  { intros hooks envelope call call' [= -> -> ->] Hop. split; [|reflexivity].
    split; [intros H; now apply marshal_without_hooks in H|tauto]. }
  intros hooks envelope call [Hin|Hin].
  - (* the data request *)
    unfold sent in Hin. injection Hin as <- <- <-. cbn [operation].
    split; [|congruence].
    unfold hooks_for. destruct (String.eqb_spec format "MSEED") as [->|Hfmt].
    + split; [tauto|]. intros _. apply marshal_data_request.
    + split; [|tauto]. intros H. now apply marshal_without_hooks in H.
  - apply in_app_or in Hin as [Hin|Hin].
    + (* the status checks *)
      apply repeat_spec in Hin. eapply Hplain; [exact Hin|discriminate].
    + (* retrieve and purge *)
      rewrite Forall_forall in Hlater.
      apply list_elem_of_In, Hlater in Hin.
      destruct Hin as [(pre' & r' & post' & _ & _ & _ & [Hev|Hev])
                      |[[[url Hev]|[payload Hev]]|(path & _ & [Hev|Hev])]];
        try discriminate Hev.
      all: eapply Hplain; [exact Hev|discriminate].
Qed.

Lemma mseed_attribute_only_on_data_request_witness :
  (exists added,
      trace (snd (example_run (example_world true true) (PyStr "out.mseed") "MSEED"))
      = trace example_state ++ added /\
      (forall hooks envelope call,
          In (Soap hooks envelope call) added ->
          (has_DataFormat_MSEED envelope <->
           operation call = "dataRequest" /\ "MSEED" = "MSEED") /\
          (operation call <> "dataRequest" -> hooks = [])) /\
      (is_Some (dataRequest_reply (example_world true true)
                  (usertoken_of example_client)
                  (stationid_of example_strftime "NL" "WIT" "00" "BH*" 0%Z 30%Z)) ->
       plugins (snd (example_run (example_world true true) (PyStr "out.mseed") "MSEED"))
       = [])) /\
  hd_error (trace (snd (example_run (example_world true true) (PyStr "out.mseed") "MSEED")))
  = Some (Soap [_RequestMSEEDPlugin]
            {| Body := [ {| name := "dataRequest";
                            attributes := [mkAttribute "DataFormat" "MSEED"] |} ] |}
            (dataRequest (usertoken_of example_client)
               (stationid_of example_strftime "NL" "WIT" "00" "BH*" 0%Z 30%Z))) /\
  hd_error (trace (snd (example_run (example_world true true) (PyStr "out.mseed") "FSEED")))
  = Some (Soap []
            {| Body := [ {| name := "dataRequest"; attributes := [] |} ] |}
            (dataRequest (usertoken_of example_client)
               (stationid_of example_strftime "NL" "WIT" "00" "BH*" 0%Z 30%Z))).
Proof.
  split; [|split; vm_compute; reflexivity].
  exact (mseed_attribute_only_on_data_request example_strftime
           (example_world true true) example_client (PyStr "out.mseed")
           "NL" "WIT" "00" "BH*" 0%Z 30%Z "MSEED" example_state).
Defined.

(** ** Who closes the file *)

Lemma no_close_later usertoken fh s (tail : list Event) h :
  Forall (later_event usertoken (PyFile fh) s) tail -> ~ In (Close h) tail.
Proof.
  intros Hlater Hin. rewrite Forall_forall in Hlater.
  apply list_elem_of_In, Hlater in Hin.
  destruct Hin as [(pre' & r' & post' & _ & _ & _ & [Hev|Hev])
                  |[[[url Hev]|[payload Hev]]|(path & Hpath & _)]];
    discriminate.
Qed.

(** C7. Given an open file handle, no run of [saveWaveform] closes
    anything: the trace gains no close and the handle's file is as open or
    closed as before.  Given a path, a run whose downloads all succeed opens
    one file, writes to it and closes it before the purge, and the file ends
    closed. *)
Theorem closes_own_file_only
    {UTCDateTime : Type} (strftime : UTCDateTime -> string)
    (w : World) (self : Client)
    (network station location channel : string)
    (starttime endtime : UTCDateTime) (format : string) (s : State) :
  (forall fh,
      (fh < length (heap s))%nat ->
      exists added,
        trace (snd (saveWaveform strftime w self (PyFile fh) network station
                      location channel starttime endtime format s))
        = trace s ++ added /\
        (forall h, ~ In (Close h) added) /\
        closed <$> heap (snd (saveWaveform strftime w self (PyFile fh) network
                                station location channel starttime endtime
                                format s)) !! fh
        = closed <$> heap s !! fh) /\
  (forall path response pre r post items payloads,
      dataRequest_reply w (usertoken_of self)
        (stationid_of strftime network station location channel
                      starttime endtime) = Some response ->
      response <> [] ->
      pending s = pre ++ Some r :: post ->
      Forall waiting pre ->
      false_in (map ReadyFlag r) = false ->
      fulfilled_ids r <> [] ->
      dataRetrieve_reply w (fulfilled_ids r) = Some items ->
      open_reply w path = true ->
      Forall2 (fun url payload => urlopen_reply w url = Some payload)
              (map (fun item => DownloadURL (DownloadToken item)) items)
              payloads ->
      exists before,
        trace (snd (saveWaveform strftime w self (PyStr path) network station
                      location channel starttime endtime format s))
        = trace s ++ before
          ++ [Open path (length (heap s))]
          ++ transfers (length (heap s))
               (map (fun item => DownloadURL (DownloadToken item)) items)
               payloads
          ++ [Close (length (heap s));
              sent [] (purgeData (usertoken_of self) (fulfilled_ids r))] /\
        heap (snd (saveWaveform strftime w self (PyStr path) network station
                     location channel starttime endtime format s))
          !! length (heap s)
        = Some (mkFile path (concat payloads) true)).
Proof.
  split.
  - intros fh Hfh.
    destruct (saveWaveform_events strftime w self (PyFile fh) network station
                location channel starttime endtime format s)
      as (res & s' & n & ids0 & tail & Hrun & Htrace & Hlater & _ & Hclosed & _).
    rewrite Hrun. cbn [snd]. eexists. split; [exact Htrace|].
    split; [|now apply Hclosed].
    intros h [Hin|Hin]; [discriminate Hin|].
    apply in_app_or in Hin as [Hin|Hin].
    + apply repeat_spec in Hin. discriminate Hin.
    + now apply (no_close_later _ _ _ _ _ Hlater) in Hin.
  - intros path response pre r post items payloads
           Hreq Hne Hs Hpre Hr Hfne Hitems Hopen Hall.
    destruct (nonempty_cons _ Hfne) as (fid & fids & Hfids).
    assert (Hids : exists id ids, map _Id response = id :: ids).
    { destruct response as [|rr rest]; [congruence|simpl; eauto]. }
    destruct Hids as (id & ids & Hids).
    rewrite Hfids in *.
    rewrite (saveWaveform_completes strftime w self (PyStr path) network
               station location channel starttime endtime format response id
               ids pre r post fid fids items s Hreq Hids Hs Hpre Hr Hfids
               Hitems Hopen payloads Hall).
    cbn [snd trace heap files_after opening closing sink].
    exists ([sent (hooks_for format) (dataRequest (usertoken_of self)
               (stationid_of strftime network station location channel
                             starttime endtime))]
            ++ repeat (sent [] (checkStatus (usertoken_of self) (id :: ids)))
                      (S (length pre))
            ++ [sent [] (dataRetrieve (usertoken_of self) (fid :: fids))]).
    split.
    + rewrite <- !app_assoc. reflexivity.
    + apply list_lookup_middle. reflexivity.
Qed.

Lemma closes_own_file_only_witness :
  (exists added,
      trace (snd (example_run (example_world true true) (PyFile 0) "MSEED"))
      = trace example_state ++ added /\
      (forall h, ~ In (Close h) added) /\
      closed <$> heap (snd (example_run (example_world true true) (PyFile 0) "MSEED")) !! 0%nat
      = closed <$> heap example_state !! 0%nat) /\
  (exists before,
      trace (snd (example_run (example_world true true) (PyStr "out.mseed") "MSEED"))
      = trace example_state ++ before
        ++ [Open "out.mseed" 1]
        ++ [Urlopen "http://orfeus/a"; Write 1 [Byte.x01; Byte.x02];
            Urlopen "http://orfeus/b"; Write 1 [Byte.x03]]
        ++ [Close 1; sent [] (purgeData (usertoken_of example_client) ["a"; "b"])] /\
      heap (snd (example_run (example_world true true) (PyStr "out.mseed") "MSEED")) !! 1%nat
      = Some (mkFile "out.mseed" [Byte.x01; Byte.x02; Byte.x03] true)).
Proof.
  split.
  - exact (proj1 (closes_own_file_only example_strftime (example_world true true)
                    example_client "NL" "WIT" "00" "BH*" 0%Z 30%Z "MSEED"
                    example_state) 0%nat Nat.lt_0_1).
  - exact (proj2 (closes_own_file_only example_strftime (example_world true true)
                    example_client "NL" "WIT" "00" "BH*" 0%Z 30%Z "MSEED"
                    example_state)
                 "out.mseed" _ example_waiting example_ready [] _ _
                 eq_refl ltac:(discriminate) eq_refl
                 (not_all_true_waiting _ example_waiting_not_ready) eq_refl
                 ltac:(discriminate) eq_refl eq_refl (example_urls_answer true)).
Defined.

(** ** Reading the waveform back *)

(** C10. When [saveWaveform] has returned and reading the temporary file
    as Mini-SEED raises, for whatever reason, [getWaveform] does not pass
    the exception on: it goes on with a new, empty [Stream], closes and
    removes the temporary file, and returns that stream trimmed; trimming
    an empty stream being no change, it returns the empty stream. *)
Theorem unreadable_download_gives_empty_stream
    {UTCDateTime : Type} (strftime : UTCDateTime -> string) (w : World)
    {Stream : Type} (read : list Byte.byte -> string -> option Stream)
    (Stream_new : Stream)
    (trim : Stream -> UTCDateTime -> UTCDateTime -> option Stream)
    (self : Client) (network station location channel : string)
    (starttime endtime : UTCDateTime) (format : string) (s s' : State) :
  saveWaveform strftime w self (PyFile (length (heap s))) network station
               location channel starttime endtime format
               (snd (NamedTemporaryFile w s)) = (inr tt, s') ->
  (exists e, fst (read_file w read (length (heap s)) "MSEED" s') = inl e) ->
  fst (getWaveform strftime w read Stream_new trim self network station
                   location channel starttime endtime format s)
  = match trim Stream_new starttime endtime with
    | Some trimmed => inr trimmed
    | None => inl (ValueError "trim")
    end /\
  (trim Stream_new starttime endtime = Some Stream_new ->
   fst (getWaveform strftime w read Stream_new trim self network station
                    location channel starttime endtime format s)
   = inr Stream_new).
Proof.
  intros Hsave [e Hread].
  assert (Hrun : fst (getWaveform strftime w read Stream_new trim self network
                        station location channel starttime endtime format s)
                 = match trim Stream_new starttime endtime with
                   | Some trimmed => inr trimmed
                   | None => inl (ValueError "trim")
                   end).
  { unfold getWaveform. rewrite bind_eq.
    assert (Htf : NamedTemporaryFile w s
                  = (inr (length (heap s)), snd (NamedTemporaryFile w s)))
      by reflexivity.
    rewrite Htf. rewrite bind_eq, Hsave. rewrite bind_eq.
    unfold try_except at 1.
    destruct (read_file w read (length (heap s)) "MSEED" s') as [[e'|stream] s2];
      [|discriminate Hread].
    unfold ret at 1. rewrite bind_eq, fh_close_run. rewrite bind_eq.
    unfold try_except at 1.
    destruct (os_remove w (tempfile_name w) _) as [[e2|[]] s3];
      destruct (trim Stream_new starttime endtime); reflexivity. }
  split; [exact Hrun|]. intros Htrim. now rewrite Hrun, Htrim.
Qed.

Lemma unreadable_download_gives_empty_stream_witness :
  fst (getWaveform example_strftime (example_world true true)
         (fun (_ : list Byte.byte) (_ : string) => @None (list nat)) []
         (fun stream _ _ => Some stream)
         example_client "NL" "WIT" "00" "BH*" 0%Z 30%Z "MSEED" example_state)
  = inr [].
Proof.
  apply (unreadable_download_gives_empty_stream example_strftime
           (example_world true true) (fun _ _ => None) []
           (fun stream _ _ => Some stream)
           example_client "NL" "WIT" "00" "BH*" 0%Z 30%Z "MSEED" example_state
           (snd (saveWaveform example_strftime (example_world true true)
                   example_client (PyFile 1) "NL" "WIT" "00" "BH*" 0%Z 30%Z
                   "MSEED"
                   (snd (NamedTemporaryFile (example_world true true)
                           example_state))))).
  - vm_compute. reflexivity.
  - eexists. vm_compute. reflexivity.
  - reflexivity.
Defined.

(** ** The mapping table *)

Lemma MAP_forth :
  map_Forall (fun key remote => MAP_back !! remote = Some key) MAP.
Proof.
  apply map_Forall_to_list.
  let l := eval vm_compute in (map_to_list MAP) in
  replace (map_to_list MAP) with l by (vm_compute; reflexivity).
  repeat (constructor; [vm_compute; reflexivity|]). constructor.
Qed.

Lemma MAP_back_forth :
  map_Forall (fun remote key => MAP !! key = Some remote) MAP_back.
Proof.
  apply map_Forall_to_list.
  let l := eval vm_compute in (map_to_list MAP_back) in
  replace (map_to_list MAP_back) with l by (vm_compute; reflexivity).
  repeat (constructor; [vm_compute; reflexivity|]). constructor.
Qed.

Lemma MAP_back_spec (key remote : string) :
  MAP !! key = Some remote <-> MAP_back !! remote = Some key.
Proof.
  split; intros H.
  - exact (MAP_forth key remote H).
  - exact (MAP_back_forth remote key H).
Qed.

(** ** Computations that leave the state alone *)

Lemma pure_ret {St A} (a : A) : pure (@ret St A a).
Proof. now intros s. Qed.

Lemma pure_raise {St A} (e : exn) : pure (@raise St A e).
Proof. now intros s. Qed.

Lemma pure_bind {St A B} (c : Py St A) (k : A -> Py St B) :
  pure c -> (forall a, pure (k a)) -> pure (bind c k).
Proof.
  intros Hc Hk s. unfold bind. specialize (Hc s).
  destruct (c s) as [[e|a] s1]; simpl in *; subst; trivial. apply Hk.
Qed.

Lemma pure_lift {St A} (r : exn + A) : pure (@lift St A r).
Proof. destruct r; [apply pure_raise|apply pure_ret]. Qed.

Lemma pure_getitem {St V} (d : gmap string V) key : pure (@getitem St V d key).
Proof. unfold getitem. destruct (d !! key); [apply pure_ret|apply pure_raise]. Qed.

Lemma pure_map_each {St A B} (xs : list A) (f : A -> Py St B) :
  (forall x, pure (f x)) -> pure (map_each xs f).
Proof.
  intros Hf. induction xs as [|x xs IH]; simpl; [apply pure_ret|].
  apply pure_bind; [apply Hf|]. intros y.
  apply pure_bind; [exact IH|]. intros ys. apply pure_ret.
Qed.

Lemma pure_fold_each {St A B} (xs : list A) (acc : B) (body : A -> B -> Py St B) :
  (forall x acc, pure (body x acc)) -> pure (fold_each xs acc body).
Proof.
  intros Hbody. revert acc. induction xs as [|x xs IH]; intros acc; simpl;
    [apply pure_ret|].
  apply pure_bind; [apply Hbody|]. intros acc'. apply IH.
Qed.

Create HintDb pure.
#[local] Hint Resolve pure_ret pure_raise pure_lift pure_getitem : pure.

Section Normaliser.
Context {UTCDateTime : Type}.
Variable float_of_string : string -> option spec_float.
Variable UTCDateTime_of : @value UTCDateTime -> option UTCDateTime.
Variable json_loads :
  string -> option (gmap string (list (gmap string (@value UTCDateTime)))).

Lemma pure__json2list_event {St} result :
  pure (@_json2list_event UTCDateTime float_of_string UTCDateTime_of St result).
Proof.
  unfold _json2list_event.
  apply pure_bind.
  { apply pure_map_each. intros kv. apply pure_bind; auto with pure. }
  intros pairs. apply pure_bind.
  { apply pure_fold_each. intros k event.
    apply pure_bind; auto with pure. intros v.
    apply pure_bind; auto with pure. }
  intros event. apply pure_bind; auto with pure. intros magnitude_type.
  apply pure_bind.
  { destruct magnitude_type; auto with pure. }
  intros event'. apply pure_bind; auto with pure. intros datetime.
  apply pure_bind.
  { destruct (UTCDateTime_of datetime); auto with pure. }
  intros event''. apply pure_bind; auto with pure. intros depth.
  apply pure_bind; auto with pure.
Qed.

Lemma pure__json2list {St} data :
  pure (@_json2list UTCDateTime float_of_string UTCDateTime_of json_loads St data).
Proof.
  unfold _json2list. destruct (json_loads data); auto with pure.
  apply pure_bind; auto with pure. intros unids.
  apply pure_map_each. intros result. apply pure__json2list_event.
Qed.
End Normaliser.

(** ** The decorator *)

Section Decorator.
Context {UTCDateTime : Type}.
Implicit Types kwargs : gmap string (@value UTCDateTime).

Lemma mapped_kwargs_lookup kwargs (remote : string) :
  mapped_kwargs kwargs !! remote =
  match MAP_back !! remote with
  | Some key =>
      match kwargs !! key with
      | Some v => Some v
      | None => default_kwargs !! remote
      end
  | None => default_kwargs !! remote
  end.
Proof.
  unfold mapped_kwargs. revert remote.
  apply (map_fold_weak_ind
           (fun (acc m : gmap string (@value UTCDateTime)) => forall remote,
              acc !! remote =
              match MAP_back !! remote with
              | Some key =>
                  match m !! key with
                  | Some v => Some v
                  | None => default_kwargs !! remote
                  end
              | None => default_kwargs !! remote
              end)).
  - intros remote. destruct (MAP_back !! remote); now rewrite ?lookup_empty.
  - intros key v m acc Hfresh IH remote.
    destruct (MAP !! key) as [remote'|] eqn:Hkey.
    + destruct (decide (remote = remote')) as [->|Hne].
      * rewrite lookup_insert_eq.
        apply MAP_back_spec in Hkey. rewrite Hkey.
        now rewrite lookup_insert_eq.
      * rewrite lookup_insert_ne by congruence. rewrite IH.
        destruct (MAP_back !! remote) as [key'|] eqn:Hback; trivial.
        rewrite lookup_insert_ne; trivial.
        intros <-. apply MAP_back_spec in Hback. congruence.
    + rewrite IH.
      destruct (MAP_back !! remote) as [key'|] eqn:Hback; trivial.
      rewrite lookup_insert_ne; trivial.
      intros <-. apply MAP_back_spec in Hback. congruence.
Qed.

Lemma _mapKwargs_run {St Self A}
    (f : Self -> list (@value UTCDateTime) -> gmap string value -> Py St A)
    self args kwargs s :
  _mapKwargs f self args kwargs s = f self args (mapped_kwargs kwargs) s.
Proof.
  unfold _mapKwargs. rewrite bind_eq. fold (@default_kwargs UTCDateTime).
  fold (mapped_kwargs kwargs).
  now destruct (f self args (mapped_kwargs kwargs) s) as [[e|a] s'].
Qed.
End Decorator.

(** ** The event search request *)

Lemma existsb_all_false {A} (P : A -> bool) (l : list A) :
  Forall (fun x => P x = false) l -> existsb P l = false.
Proof. induction 1 as [|x l Hx _ IH]; simpl; [trivial|now rewrite Hx]. Qed.

Lemma zip_keys_in_take {A B} (names : list A) (args : list B) (x : A) :
  x ∈ (zip names args).*1 -> x ∈ take (length args) names.
Proof.
  revert args. induction names as [|n names IH]; intros [|a args]; simpl;
    try (intros H; now apply elem_of_nil in H).
  rewrite !elem_of_cons. intros [->|H]; [now left|right; now apply IH].
Qed.

(** Settle the tests on parameter names that are written out. *)
Ltac name_cases :=
  repeat match goal with
  | |- context [decide (?a = ?b)] =>
      destruct (decide (a = b)) as [?|?]; [try discriminate|try congruence]
  | |- context [decide (?a ∈ getEvents_parameters)] =>
      let Hin := fresh "Hin" in
      destruct (decide (a ∈ getEvents_parameters)) as [Hin|_];
      [exfalso; unfold getEvents_parameters in Hin;
       repeat (apply elem_of_cons in Hin as [Hin|Hin]; [discriminate Hin|]);
       now apply elem_of_nil in Hin|]
  end.

Section Search.
Context {UTCDateTime : Type}.
Variable float_of_string : string -> option spec_float.
Variable UTCDateTime_of : @value UTCDateTime -> option UTCDateTime.
Variable json_loads :
  string -> option (gmap string (list (gmap string (@value UTCDateTime)))).
Variable urlopen_get : @Request UTCDateTime -> option string.
Implicit Types kwargs : gmap string (@value UTCDateTime).

(** None of the first fifteen parameter names of [getEvents] is a key of
    the dictionary the decorator builds. *)
Lemma positional_names_unmapped kwargs :
  Forall (fun n => mapped_kwargs kwargs !! n = None)
         (take 15 getEvents_parameters).
Proof.
  repeat (constructor; [rewrite mapped_kwargs_lookup; vm_compute; reflexivity|]).
  constructor.
Qed.

Lemma bind_call_getEvents (args : list (@value UTCDateTime)) kwargs :
  (length args <= 15)%nat ->
  exists named rest,
    bind_call getEvents_parameters args (mapped_kwargs kwargs) = inr (named, rest) /\
    named !! "format" = mapped_kwargs kwargs !! "format" /\
    forall k, rest !! k = if decide (k ∈ getEvents_parameters) then None
                          else mapped_kwargs kwargs !! k.
Proof.
  intros Hargs. unfold bind_call.
  assert (Hlen : (length getEvents_parameters <? length args)%nat = false)
    by (apply Nat.ltb_ge; simpl; lia).
  rewrite Hlen.
  assert (Hprefix : forall x, x ∈ take (length args) getEvents_parameters ->
                              x ∈ take 15 getEvents_parameters).
  { intros x Hx.
    replace (length args) with (length args `min` 15)%nat in Hx by lia.
    rewrite <- take_take in Hx. eapply subseteq_take; exact Hx. }
  pose proof (positional_names_unmapped kwargs) as Hnone.
  rewrite Forall_forall in Hnone.
  rewrite existsb_all_false.
  2:{ apply Forall_forall. intros n Hn.
      rewrite (Hnone n (Hprefix n Hn)). reflexivity. }
  eexists _, _. split; [reflexivity|]. split.
  - rewrite lookup_union_r.
    + rewrite map_lookup_filter. destruct (mapped_kwargs kwargs !! "format"); trivial.
    + apply not_elem_of_list_to_map_1. intros Hin.
      apply zip_keys_in_take, Hprefix in Hin.
      vm_compute take in Hin.
      repeat (apply elem_of_cons in Hin as [Hin|Hin]; [discriminate Hin|]).
      now apply elem_of_nil in Hin.
  - intros k. rewrite map_lookup_filter.
    destruct (mapped_kwargs kwargs !! k) as [v|]; simpl.
    + destruct (decide (k ∈ getEvents_parameters)).
      * now rewrite option_guard_False by tauto.
      * now rewrite option_guard_True.
    + now destruct (decide (k ∈ getEvents_parameters)).
Qed.

Lemma switch_depth_run {St} (key : string) kwargs (s : St) :
  (forall v, kwargs !! key = Some v -> switchable v) ->
  exists kwargs',
    switch_depth key kwargs s = (inr kwargs', s) /\
    forall k, kwargs' !! k = if decide (k = key) then switched <$> kwargs !! key
                             else kwargs !! k.
Proof.
  intros Hok. unfold switch_depth.
  destruct (kwargs !! key) as [v|] eqn:Hv.
  - destruct (truthy v) eqn:Htruthy.
    + destruct (Hok v eq_refl Htruthy) as [negated Hneg].
      rewrite Hneg. eexists. split; [reflexivity|].
      intros k. destruct (decide (k = key)) as [->|Hne].
      * rewrite lookup_insert_eq. cbn. unfold switched.
        now rewrite Htruthy, Hneg.
      * now rewrite lookup_insert_ne by congruence.
    + exists kwargs. split; [reflexivity|].
      intros k. destruct (decide (k = key)) as [->|Hne]; trivial.
      rewrite Hv. cbn. unfold switched. now rewrite Htruthy.
  - exists kwargs. split; [reflexivity|].
    intros k. destruct (decide (k = key)) as [->|Hne]; trivial.
Qed.

(** The one request of a search that Python accepts: what it asks for. *)
Lemma getEvents_request (self : Client) (args : list (@value UTCDateTime))
    kwargs (log : list (@Request UTCDateTime)) :
  (length args <= 15)%nat ->
  (forall v, mapped_kwargs kwargs !! "depthMin" = Some v -> switchable v) ->
  (forall v, mapped_kwargs kwargs !! "depthMax" = Some v -> switchable v) ->
  exists res q,
    getEvents float_of_string UTCDateTime_of json_loads urlopen_get
              self args kwargs log =
    (res, log ++ [mkRequest (base_url self ++ "/services/event/search") q]) /\
    q !! "format" = (if eq_str (format_of kwargs) "list"
                     then Some (VStr "json") else None) /\
    q !! "depthMin" = switched <$> mapped_kwargs kwargs !! "depthMin" /\
    q !! "depthMax" = switched <$> mapped_kwargs kwargs !! "depthMax" /\
    forall k, k <> "format" -> k <> "depthMin" -> k <> "depthMax" ->
              q !! k = if decide (k ∈ getEvents_parameters) then None
                       else mapped_kwargs kwargs !! k.
Proof.
  intros Hargs Hmin Hmax.
  unfold getEvents. rewrite _mapKwargs_run. unfold getEvents_undecorated.
  destruct (bind_call_getEvents args kwargs Hargs)
    as (named & rest & Hbound & Hformat & Hrest).
  rewrite bind_eq, Hbound. cbn [lift ret fst snd].
  rewrite Hformat. fold (format_of kwargs).
  set (kwargs1 := if eq_str (format_of kwargs) "list"
                  then <["format" := VStr "json"]> rest else rest).
  assert (H1 : forall k, kwargs1 !! k =
                         if decide (k = "format")
                         then (if eq_str (format_of kwargs) "list"
                               then Some (VStr "json") else None)
                         else rest !! k).
  { intros k. subst kwargs1. destruct (decide (k = "format")) as [->|Hne].
    - destruct (eq_str (format_of kwargs) "list").
      + now rewrite lookup_insert_eq.
      + rewrite Hrest. reflexivity.
    - destruct (eq_str (format_of kwargs) "list"); trivial.
      now rewrite lookup_insert_ne by congruence. }
  destruct (switch_depth_run "depthMin" kwargs1 log) as (kwargs2 & Hrun2 & H2).
  { intros v. rewrite H1, Hrest. name_cases. exact (Hmin v). }
  rewrite bind_eq, Hrun2.
  destruct (switch_depth_run "depthMax" kwargs2 log) as (kwargs3 & Hrun3 & H3).
  { intros v. rewrite H2. name_cases. rewrite H1, Hrest. name_cases.
    exact (Hmax v). }
  rewrite bind_eq, Hrun3.
  rewrite bind_eq. unfold _fetch. rewrite bind_eq. unfold modify at 1.
  assert (Hq : forall k,
             kwargs3 !! k =
             if decide (k = "depthMax") then switched <$> mapped_kwargs kwargs !! "depthMax"
             else if decide (k = "depthMin") then switched <$> mapped_kwargs kwargs !! "depthMin"
             else if decide (k = "format")
                  then (if eq_str (format_of kwargs) "list"
                        then Some (VStr "json") else None)
                  else rest !! k).
  { intros k. rewrite H3. destruct (decide (k = "depthMax")) as [->|Hne3].
    - rewrite H2. name_cases. rewrite H1, Hrest. now name_cases.
    - rewrite H2. destruct (decide (k = "depthMin")) as [->|Hne2].
      + rewrite H1, Hrest. now name_cases.
      + apply H1. }
  assert (Hlog : exists res,
             (let (r, s') := answer "urlopen"
                               (urlopen_get
                                  {| address := base_url self ++ "/services/event/search";
                                     query := kwargs3 |})
                               (log ++ [{| address := base_url self ++ "/services/event/search";
                                           query := kwargs3 |}]) in
              match r with
              | inl e => (inl e, s')
              | inr data =>
                  (if eq_str (format_of kwargs) "list"
                   then events <- _json2list float_of_string UTCDateTime_of
                                             json_loads data ;;
                        ret (EventList events)
                   else ret (QuakeML data)) s'
              end) =
             (res, log ++ [{| address := base_url self ++ "/services/event/search";
                              query := kwargs3 |}])).
  { unfold answer. destruct (urlopen_get _) as [data|]; [|eexists; reflexivity].
    unfold ret at 1. destruct (eq_str (format_of kwargs) "list").
    - rewrite bind_eq.
      pose proof (pure__json2list float_of_string UTCDateTime_of json_loads
                    (St := list (@Request UTCDateTime)) data
                    (log ++ [{| address := base_url self ++ "/services/event/search";
                                query := kwargs3 |}])) as Hpure.
      destruct (_json2list _ _ _ data _) as [[e|events] s'];
        simpl in Hpure; subst s'; eexists; reflexivity.
    - eexists; reflexivity. }
  destruct Hlog as [res Hlog]. exists res, kwargs3.
  split; [exact Hlog|]. rewrite !Hq.
  split; [now name_cases|]. split; [now name_cases|]. split; [now name_cases|].
  intros k Hk1 Hk2 Hk3. rewrite Hq.
  repeat (destruct (decide (k = _)) as [?|_]; [congruence|]). apply Hrest.
Qed.
End Search.

(** ** Properties of the event search *)

Section Keywords.
Context {UTCDateTime : Type}.
Variable float_of_string : string -> option spec_float.
Variable UTCDateTime_of : @value UTCDateTime -> option UTCDateTime.
Variable json_loads :
  string -> option (gmap string (list (gmap string (@value UTCDateTime)))).
Variable urlopen_get : @Request UTCDateTime -> option string.
Implicit Types kwargs : gmap string (@value UTCDateTime).

Lemma default_kwargs_keys (k : string) :
  is_Some (@default_kwargs UTCDateTime !! k) ->
  In k ["sort"; "dir"; "limit"; "format"].
Proof.
  unfold default_kwargs, py_dict. cbn [foldl fst snd].
  intros Hk. simpl.
  destruct (decide (k = "sort")) as [->|H1]; [auto|].
  destruct (decide (k = "dir")) as [->|H2]; [auto|].
  destruct (decide (k = "limit")) as [->|H3]; [auto|].
  destruct (decide (k = "format")) as [->|H4]; [auto 6|].
  rewrite !lookup_insert_ne, lookup_empty in Hk by congruence.
  now destruct Hk.
Qed.

Lemma remote_not_parameter (remote key : string) :
  MAP_back !! remote = Some key -> remote <> "format" ->
  remote ∉ getEvents_parameters.
Proof.
  intros Hback Hne Hin. unfold getEvents_parameters in Hin.
  repeat (apply elem_of_cons in Hin as [->|Hin];
          [first [vm_compute in Hback; discriminate Hback | congruence]|]).
  now apply elem_of_nil in Hin.
Qed.

Lemma mapped_depthMin kwargs :
  mapped_kwargs kwargs !! "depthMin" = kwargs !! "min_depth".
Proof.
  rewrite mapped_kwargs_lookup.
  replace (MAP_back !! "depthMin") with (Some "min_depth") by (vm_compute; reflexivity).
  now destruct (kwargs !! "min_depth").
Qed.

Lemma mapped_depthMax kwargs :
  mapped_kwargs kwargs !! "depthMax" = kwargs !! "max_depth".
Proof.
  rewrite mapped_kwargs_lookup.
  replace (MAP_back !! "depthMax") with (Some "max_depth") by (vm_compute; reflexivity).
  now destruct (kwargs !! "max_depth").
Qed.

(** C9, as the code has it.  A [getEvents] call that Python accepts (at most
    fifteen positional arguments, depth bounds that can be negated) sends
    one request.  Its query holds, for every keyword of the call that [MAP]
    covers, other than [format] and the two depth bounds, the remote key
    with the value given; and it holds nothing else than the four defaults
    [sort], [dir], [limit], [format] and remote keys of keywords that [MAP]
    covers: a keyword outside [MAP] is dropped. *)
Theorem mapped_keywords_sent_others_dropped
    (self : Client) (args : list (@value UTCDateTime)) kwargs
    (log : list (@Request UTCDateTime)) :
  (length args <= 15)%nat ->
  (forall v, kwargs !! "min_depth" = Some v -> switchable v) ->
  (forall v, kwargs !! "max_depth" = Some v -> switchable v) ->
  exists res q,
    getEvents float_of_string UTCDateTime_of json_loads urlopen_get
              self args kwargs log =
    (res, log ++ [mkRequest (base_url self ++ "/services/event/search") q]) /\
    (forall key remote v,
        MAP !! key = Some remote -> kwargs !! key = Some v ->
        remote <> "format" -> remote <> "depthMin" -> remote <> "depthMax" ->
        q !! remote = Some v) /\
    (forall k,
        is_Some (q !! k) ->
        In k ["sort"; "dir"; "limit"; "format"] \/
        exists key, MAP !! key = Some k /\ is_Some (kwargs !! key)).
Proof.
  intros Hargs Hmin Hmax.
  destruct (getEvents_request float_of_string UTCDateTime_of json_loads
              urlopen_get self args kwargs log Hargs)
    as (res & q & Hrun & Hformat & HdepthMin & HdepthMax & Hother).
  { intros v. rewrite mapped_depthMin. apply Hmin. }
  { intros v. rewrite mapped_depthMax. apply Hmax. }
  exists res, q. split; [exact Hrun|]. split.
  - intros key remote v Hkey Hv Hn1 Hn2 Hn3.
    rewrite (Hother remote Hn1 Hn2 Hn3).
    apply MAP_back_spec in Hkey.
    destruct (decide (remote ∈ getEvents_parameters)) as [Hin|_].
    + now apply (remote_not_parameter remote key Hkey Hn1) in Hin.
    + now rewrite mapped_kwargs_lookup, Hkey, Hv.
  - intros k Hk.
    destruct (decide (k = "format")) as [->|Hn1]; [left; simpl; auto 6|].
    destruct (decide (k = "depthMin")) as [->|Hn2].
    { right. exists "min_depth". split; [vm_compute; reflexivity|].
      rewrite HdepthMin, mapped_depthMin in Hk.
      destruct (kwargs !! "min_depth"); [eauto|now destruct Hk]. }
    destruct (decide (k = "depthMax")) as [->|Hn3].
    { right. exists "max_depth". split; [vm_compute; reflexivity|].
      rewrite HdepthMax, mapped_depthMax in Hk.
      destruct (kwargs !! "max_depth"); [eauto|now destruct Hk]. }
    rewrite (Hother k Hn1 Hn2 Hn3) in Hk.
    destruct (decide (k ∈ getEvents_parameters)); [now destruct Hk|].
    rewrite mapped_kwargs_lookup in Hk.
    destruct (MAP_back !! k) as [key|] eqn:Hback.
    + destruct (kwargs !! key) as [v|] eqn:Hv.
      * right. exists key. split; [now apply MAP_back_spec|].
        rewrite Hv. eauto.
      * left. now apply default_kwargs_keys.
    + left. now apply default_kwargs_keys.
Qed.
End Keywords.

Lemma mapped_keywords_sent_others_dropped_witness :
  exists res q,
    getEvents (fun _ => None) (fun _ => None) (fun _ => None) (fun _ => None)
              example_client [] (py_dict [("min_magnitude", @VInt Z 9)]) [] =
    (res, [] ++ [mkRequest (base_url example_client ++ "/services/event/search") q]) /\
    (forall key remote v,
        MAP !! key = Some remote ->
        py_dict [("min_magnitude", @VInt Z 9)] !! key = Some v ->
        remote <> "format" -> remote <> "depthMin" -> remote <> "depthMax" ->
        q !! remote = Some v) /\
    (forall k,
        is_Some (q !! k) ->
        In k ["sort"; "dir"; "limit"; "format"] \/
        exists key, MAP !! key = Some k /\
                    is_Some (py_dict [("min_magnitude", @VInt Z 9)] !! key)).
Proof.
  apply (mapped_keywords_sent_others_dropped (fun _ => None) (fun _ => None)
           (fun _ => None) (fun _ => None) example_client []
           (py_dict [("min_magnitude", @VInt Z 9)]) []).
  - simpl. lia.
  - intros v H. vm_compute in H. discriminate H.
  - intros v H. vm_compute in H. discriminate H.
Defined.

(** C9 does not hold as stated: [getEvents(min_magnitude=9, foo=1)]
    asks for [magMin=9], and [foo], which [MAP] does not cover, is not in
    the query. *)
Lemma unmapped_keyword_not_passed_through :
  map (fun request => (query request !! "magMin", query request !! "foo"))
      (example_search [] [("min_magnitude", VInt 9); ("foo", VInt 1)])
  = [(Some (VInt 9), None)].
Proof. vm_compute. reflexivity. Qed.

(** ** Depth signs *)

Lemma map_each_inr {St A B} (xs : list A) (f : A -> Py St B) :
  forall s ys s',
    map_each xs f s = (inr ys, s') ->
    Forall2 (fun x y => exists s1 s2, f x s1 = (inr y, s2)) xs ys.
Proof.
  induction xs as [|x xs IH]; intros s ys s' Hrun; simpl in Hrun.
  - injection Hrun as <- _. constructor.
  - rewrite bind_eq in Hrun.
    destruct (f x s) as [[e|y] s1] eqn:Hx; [discriminate Hrun|].
    rewrite bind_eq in Hrun.
    destruct (map_each xs f s1) as [[e|ys'] s2] eqn:Hxs; [discriminate Hrun|].
    injection Hrun as <- _.
    constructor; [eauto|]. eapply IH; exact Hxs.
Qed.

Lemma depth_key_back (k : string) :
  MAP_INVERSE !! k = Some "depth" -> k = "depth".
Proof.
  intros Hk.
  assert (Hall : map_Forall (fun k k' => k' = "depth" -> k = "depth") MAP_INVERSE).
  { apply map_Forall_to_list.
    let l := eval vm_compute in (map_to_list MAP_INVERSE) in
    replace (map_to_list MAP_INVERSE) with l by (vm_compute; reflexivity).
    repeat (constructor;
            [simpl; intros Heq; first [discriminate Heq | exact eq_refl]|]).
    constructor. }
  exact (Hall k "depth" Hk eq_refl).
Qed.

(** After the keys are renamed, ["depth"] holds what the record held under
    ["depth"]. *)
Lemma renamed_depth {V} (l : list (string * V)) (pairs : list (string * V)) :
  NoDup l.*1 ->
  Forall2 (fun kv p => MAP_INVERSE !! kv.1 = Some p.1 /\ p.2 = kv.2) l pairs ->
  forall acc : gmap string V,
    foldl (fun d kv => <[kv.1 := kv.2]> d) acc pairs !! "depth" =
    match (list_to_map l : gmap string V) !! "depth" with
    | Some v => Some v
    | None => acc !! "depth"
    end.
Proof.
  intros Hnodup Hall. induction Hall as [|[k v] [k' v'] l pairs [Hk Hv] _ IH];
    intros acc; simpl in *.
  - now rewrite lookup_empty.
  - subst v'. apply NoDup_cons in Hnodup as [Hfresh Hnodup].
    rewrite (IH Hnodup).
    destruct (decide (k = "depth")) as [->|Hne].
    + vm_compute in Hk. injection Hk as <-.
      rewrite lookup_insert_eq.
      rewrite (not_elem_of_list_to_map_1 l "depth" Hfresh).
      now rewrite lookup_insert_eq.
    + rewrite (lookup_insert_ne (list_to_map l)) by exact Hne.
      destruct (list_to_map l !! "depth"); trivial.
      rewrite lookup_insert_ne; trivial.
      intros ->. apply depth_key_back in Hk. congruence.
Qed.

Section Depth.
Context {UTCDateTime : Type}.
Variable float_of_string : string -> option spec_float.
Variable UTCDateTime_of : @value UTCDateTime -> option UTCDateTime.
Variable json_loads :
  string -> option (gmap string (list (gmap string (@value UTCDateTime)))).
Variable urlopen_get : @Request UTCDateTime -> option string.
Implicit Types kwargs event result : gmap string (@value UTCDateTime).

Lemma bind_inr {St A B} (c : Py St A) (k : A -> Py St B) (s : St) b s' :
  bind c k s = (inr b, s') ->
  exists a s1, c s = (inr a, s1) /\ k a s1 = (inr b, s').
Proof.
  rewrite bind_eq. destruct (c s) as [[e|a] s1]; [discriminate|eauto].
Qed.

Lemma getitem_inr {St V} (d : gmap string V) (k : string) (s : St) v s' :
  getitem d k s = (inr v, s') -> d !! k = Some v.
Proof.
  unfold getitem. destruct (d !! k); [|discriminate].
  unfold ret. now intros [= <- _].
Qed.

Lemma lift_inr {St A} (r : exn + A) (s : St) a s' :
  lift r s = (inr a, s') -> r = inr a.
Proof. destruct r; [discriminate|]. unfold lift, ret. now intros [= <- _]. Qed.

Lemma float_step {St} (k : string) event (s : St) event' s' :
  (v <- getitem event k ;;
   f <- lift (py_float float_of_string v) ;;
   ret (<[k := VFloat f]> event)) s = (inr event', s') ->
  exists v f, event !! k = Some v /\ py_float float_of_string v = inr f /\
              event' = <[k := VFloat f]> event.
Proof.
  intros H.
  apply bind_inr in H as (v & s1 & Hv & H). apply getitem_inr in Hv.
  apply bind_inr in H as (f & s2 & Hf & H). apply lift_inr in Hf.
  unfold ret in H. injection H as <- _. eauto.
Qed.

(** One normalised record: its depth is the raw depth as a float, negated. *)
Lemma _json2list_event_depth {St} result (s : St) event s' :
  _json2list_event float_of_string UTCDateTime_of result s = (inr event, s') ->
  exists raw d,
    result !! "depth" = Some raw /\
    py_float float_of_string raw = inr d /\
    event !! "depth" = Some (VFloat (SFopp d)).
Proof.
  unfold _json2list_event. intros H.
  apply bind_inr in H as (pairs & s1 & Hpairs & H).
  assert (Hrenamed : py_dict pairs !! "depth" = result !! "depth").
  { unfold py_dict.
    rewrite (renamed_depth (map_to_list result) pairs
               (NoDup_fst_map_to_list result)).
    - rewrite list_to_map_to_list, lookup_empty.
      now destruct (result !! "depth").
    - apply map_each_inr in Hpairs.
      eapply Forall2_impl; [exact Hpairs|].
      intros [k v] [k' v'] (s2 & s3 & Hstep). cbn [fst snd] in *.
      apply bind_inr in Hstep as (k'' & s4 & Hk & Hstep).
      apply getitem_inr in Hk. unfold ret in Hstep.
      injection Hstep as <- <- _. split; [exact Hk|reflexivity]. }
  apply bind_inr in H as (event4 & s2 & Hfloats & H).
  cbn [float_keys fold_each] in Hfloats.
  apply bind_inr in Hfloats as (event1 & t1 & H1 & Hfloats).
  apply bind_inr in Hfloats as (event2 & t2 & H2 & Hfloats).
  apply bind_inr in Hfloats as (event3 & t3 & H3 & Hfloats).
  apply bind_inr in Hfloats as (event4' & t4 & H4 & Hfloats).
  unfold ret in Hfloats. injection Hfloats as Hev _. subst event4'.
  apply float_step in H1 as (raw & d & Hraw & Hd & Hev1).
  apply float_step in H2 as (v2 & f2 & _ & _ & Hev2).
  apply float_step in H3 as (v3 & f3 & _ & _ & Hev3).
  apply float_step in H4 as (v4 & f4 & _ & _ & Hev4).
  assert (Hdepth4 : event4 !! "depth" = Some (VFloat d)).
  { rewrite Hev4, Hev3, Hev2, Hev1.
    rewrite !lookup_insert_ne by discriminate.
    apply lookup_insert_eq. }
  apply bind_inr in H as (magnitude_type & s3 & _ & H).
  apply bind_inr in H as (event5 & s4 & H5 & H).
  assert (Hdepth5 : event5 !! "depth" = Some (VFloat d)).
  { destruct magnitude_type; try discriminate H5.
    unfold ret in H5. injection H5 as <- _.
    now rewrite lookup_insert_ne by discriminate. }
  apply bind_inr in H as (datetime & s5 & _ & H).
  apply bind_inr in H as (event6 & s6 & H6 & H).
  assert (Hdepth6 : event6 !! "depth" = Some (VFloat d)).
  { destruct (UTCDateTime_of datetime); try discriminate H6.
    unfold ret in H6. injection H6 as <- _.
    now rewrite lookup_insert_ne by discriminate. }
  apply bind_inr in H as (depth & s7 & Hdepth & H).
  apply getitem_inr in Hdepth. rewrite Hdepth6 in Hdepth.
  injection Hdepth as <-.
  apply bind_inr in H as (negated & s8 & Hneg & H).
  apply lift_inr in Hneg. cbn [py_neg] in Hneg. injection Hneg as <-.
  unfold ret in H. injection H as <- _.
  exists raw, d. rewrite <- Hrenamed.
  split; [exact Hraw|]. split; [exact Hd|].
  apply lookup_insert_eq.
Qed.
End Depth.

Lemma switched_float_back {UTCDateTime : Type} (d : spec_float) :
  exists d', @switched UTCDateTime (VFloat (SFopp d)) = VFloat d' /\
             same_number d' d /\
             ((forall sgn, d <> S754_zero sgn) -> d' = d).
Proof.
  destruct d as [sgn|sgn| |sgn m e]; unfold switched; cbn.
  - exists (S754_zero (negb sgn)). split; [reflexivity|]. split.
    + right. eauto.
    + intros H. now destruct (H sgn).
  - exists (S754_infinity sgn). rewrite negb_involutive.
    split; [reflexivity|]. split; [now left|reflexivity].
  - exists S754_nan. split; [reflexivity|]. split; [now left|reflexivity].
  - exists (S754_finite sgn m e). rewrite negb_involutive.
    split; [reflexivity|]. split; [now left|reflexivity].
Qed.

Section DepthSigns.
Context {UTCDateTime : Type}.
Variable float_of_string : string -> option spec_float.
Variable UTCDateTime_of : @value UTCDateTime -> option UTCDateTime.
Variable json_loads :
  string -> option (gmap string (list (gmap string (@value UTCDateTime)))).
Variable urlopen_get : @Request UTCDateTime -> option string.

(** C8. Inbound, every event that [_json2list] returns has as depth the
    float value of the raw record's depth with its sign flipped.  Outbound,
    [getEvents] sends each depth bound negated: an integer [z] as [-z], a
    float as its opposite (a zero, which Python takes for false, is sent as
    it is, and is the same number as its opposite).  So a depth [d] of the
    service, normalised to [-d] and handed back as a bound, is sent as [d]:
    the same float when [d] is not a zero, a zero when it is. *)
Theorem depth_sign_flipped_both_ways :
  (forall (St : Type) data results unids (s : St) events s',
      json_loads data = Some results ->
      results !! "unids" = Some unids ->
      _json2list float_of_string UTCDateTime_of json_loads data s
      = (inr events, s') ->
      Forall2 (fun result event =>
                 exists raw d,
                   result !! "depth" = Some raw /\
                   py_float float_of_string raw = inr d /\
                   event !! "depth" = Some (VFloat (SFopp d)))
              unids events) /\
  (forall self args (kwargs : gmap string (@value UTCDateTime)) log,
      (length args <= 15)%nat ->
      (forall v, kwargs !! "min_depth" = Some v -> switchable v) ->
      (forall v, kwargs !! "max_depth" = Some v -> switchable v) ->
      exists res q,
        getEvents float_of_string UTCDateTime_of json_loads urlopen_get
                  self args kwargs log =
        (res, log ++ [mkRequest (base_url self ++ "/services/event/search") q]) /\
        q !! "depthMin" = switched <$> kwargs !! "min_depth" /\
        q !! "depthMax" = switched <$> kwargs !! "max_depth") /\
  (forall z : Z, @switched UTCDateTime (VInt z) = VInt (- z)) /\
  (forall f, exists f', @switched UTCDateTime (VFloat f) = VFloat f' /\
                        same_number f' (SFopp f)) /\
  (forall d self args (kwargs : gmap string (@value UTCDateTime)) log,
      (length args <= 15)%nat ->
      kwargs !! "min_depth" = Some (VFloat (SFopp d)) ->
      (forall v, kwargs !! "max_depth" = Some v -> switchable v) ->
      exists res q d',
        getEvents float_of_string UTCDateTime_of json_loads urlopen_get
                  self args kwargs log =
        (res, log ++ [mkRequest (base_url self ++ "/services/event/search") q]) /\
        q !! "depthMin" = Some (VFloat d') /\
        same_number d' d /\
        ((forall sgn, d <> S754_zero sgn) -> d' = d)).
Proof.
  assert (Hout : forall self args (kwargs : gmap string (@value UTCDateTime)) log,
      (length args <= 15)%nat ->
      (forall v, kwargs !! "min_depth" = Some v -> switchable v) ->
      (forall v, kwargs !! "max_depth" = Some v -> switchable v) ->
      exists res q,
        getEvents float_of_string UTCDateTime_of json_loads urlopen_get
                  self args kwargs log =
        (res, log ++ [mkRequest (base_url self ++ "/services/event/search") q]) /\
        q !! "depthMin" = switched <$> kwargs !! "min_depth" /\
        q !! "depthMax" = switched <$> kwargs !! "max_depth").
  { intros self args kwargs log Hargs Hmin Hmax.
    destruct (getEvents_request float_of_string UTCDateTime_of json_loads
                urlopen_get self args kwargs log Hargs)
      as (res & q & Hrun & _ & HdepthMin & HdepthMax & _).
    { intros v. rewrite mapped_depthMin. apply Hmin. }
    { intros v. rewrite mapped_depthMax. apply Hmax. }
    exists res, q. rewrite HdepthMin, HdepthMax, mapped_depthMin, mapped_depthMax.
    auto. }
  split; [|split; [exact Hout|split; [|split]]].
  - intros St data results unids s events s' Hloads Hunids Hrun.
    unfold _json2list in Hrun. rewrite Hloads in Hrun.
    apply bind_inr in Hrun as (unids' & s1 & Hget & Hrun).
    apply getitem_inr in Hget. rewrite Hunids in Hget. injection Hget as <-.
    apply map_each_inr in Hrun.
    eapply Forall2_impl; [exact Hrun|].
    intros result event (s2 & s3 & Hevent).
    eapply _json2list_event_depth; exact Hevent.
  - intros z. unfold switched. cbn.
    destruct (Z.eqb_spec z 0) as [->|]; reflexivity.
  - intros f. destruct f as [sgn|sgn| |sgn m e]; unfold switched; cbn;
      eexists; (split; [reflexivity|]); try (now left).
    right. eauto.
  - intros d self args kwargs log Hargs Hmin Hmax.
    destruct (Hout self args kwargs log Hargs) as (res & q & Hrun & HdepthMin & _).
    { intros v. rewrite Hmin. intros [= <-] Htruthy. cbn. eauto. }
    { exact Hmax. }
    destruct (@switched_float_back UTCDateTime d) as (d' & Hd' & Hsame & Hexact).
    exists res, q, d'. split; [exact Hrun|].
    rewrite HdepthMin, Hmin. cbn. rewrite Hd'. auto.
Qed.
End DepthSigns.

Lemma depth_sign_flipped_both_ways_witness :
  Forall2 (fun result event =>
             exists raw d,
               result !! "depth" = Some raw /\
               py_float (fun _ => None) raw = inr d /\
               event !! "depth" = Some (VFloat (SFopp d)))
          [example_record]
          (match fst (_json2list (fun _ => None) example_UTCDateTime_of
                                 example_json_loads "events" tt) with
           | inr events => events
           | inl _ => []
           end) /\
  exists res q d',
    getEvents (fun _ => None) example_UTCDateTime_of example_json_loads
              (fun _ => None) example_client []
              (py_dict [("min_depth", VFloat (SFopp (S754_finite false 5 1)))]) []
    = (res, [] ++ [mkRequest (base_url example_client ++ "/services/event/search") q]) /\
    q !! "depthMin" = Some (VFloat d') /\
    same_number d' (S754_finite false 5 1) /\
    ((forall sgn, S754_finite false 5 1 <> S754_zero sgn) ->
     d' = S754_finite false 5 1).
Proof.
  destruct (depth_sign_flipped_both_ways (fun _ => None) example_UTCDateTime_of
              example_json_loads (fun _ => None))
    as (Hin & _ & _ & _ & Hround).
  split.
  - apply (Hin unit "events" {[ "unids" := [example_record] ]} [example_record]
               tt _ tt).
    + reflexivity.
    + vm_compute. reflexivity.
    + vm_compute. reflexivity.
  - apply (Hround (S754_finite false 5 1) example_client []
                  (py_dict [("min_depth", VFloat (SFopp (S754_finite false 5 1)))])
                  []).
    + simpl. lia.
    + vm_compute. reflexivity.
    + intros v H. vm_compute in H. discriminate H.
Defined.
